(** * Couler: step-defining calls and SQL escaping

    A shallow embedding of [couler/core/run_templates.py] ([run_script],
    [run_container], [run_job]) and of [escape_sql] from
    [couler/steps/sqlflow.py].

    Python values are an inductive type [pyval]; the module-level mutable
    state of [couler.core.states] is a record [States] threaded through a
    state-and-exception monad [M]; a raised exception keeps the state as it
    was at the [raise]. *)

From Stdlib Require Import ZArith String Ascii List Lia DecimalString DecimalNat.
From stdpp Require Import base option list strings gmap.
Import ListNotations.
Open Scope string_scope.
Set Warnings "-register-all".

(* ===================================================================== *)
(** * Part I: definitions *)
(* ===================================================================== *)

(** ** Python [str.replace] and [escape_sql] (sqlflow.py) *)

Module sqlflow.

(** The four characters [escape_sql] looks for. *)
Definition backslash : ascii := "092"%char.
Definition dquote : ascii := "034"%char.
Definition backtick : ascii := "096"%char.
Definition dollar : ascii := "036"%char.

Definition str1 (c : ascii) : string := String c EmptyString.

(** [s.replace(old, new)] for a non-empty [old]: scan left to right, copy
    [new] at each occurrence of [old] and resume after it.  [skip] counts
    the characters of the current occurrence still to be dropped. *)
Fixpoint replace_from (old new s : string) (skip : nat) : string :=
  match s with
  | EmptyString => EmptyString
  | String c s' =>
      match skip with
      | S k => replace_from old new s' k
      | O =>
          if String.prefix old s
          then new +:+ replace_from old new s' (String.length old - 1)
          else String c (replace_from old new s' 0)
      end
  end.

Definition replace (old new s : string) : string := replace_from old new s 0.

(** [escape_sql]: the chain of four [replace] calls of the source. *)
Definition escape_sql (original_sql : string) : string :=
  replace (str1 dollar) (String backslash (str1 dollar))
    (replace (str1 backtick) (String backslash (str1 backtick))
       (replace (str1 dquote) (String backslash (str1 dquote))
          (replace (str1 backslash) (String backslash (str1 backslash))
             original_sql))).

(** The claim's wording: "each occurrence of character [c] is replaced by
    the string [r]", one character at a time. *)
Fixpoint replace_each (c : ascii) (r : string) (s : string) : string :=
  match s with
  | EmptyString => EmptyString
  | String a s' =>
      if Ascii.eqb a c then r +:+ replace_each c r s'
      else String a (replace_each c r s')
  end.

Definition escape_sql_sequential (s : string) : string :=
  replace_each dollar (String backslash (str1 dollar))
    (replace_each backtick (String backslash (str1 backtick))
       (replace_each dquote (String backslash (str1 dquote))
          (replace_each backslash (String backslash (str1 backslash)) s))).

(** [c] occurs in [s]. *)
Fixpoint occurs (c : ascii) (s : string) : bool :=
  match s with
  | EmptyString => false
  | String a s' => Ascii.eqb a c || occurs c s'
  end.

Definition has_special (s : string) : bool :=
  occurs backslash s || occurs dquote s || occurs backtick s || occurs dollar s.

End sqlflow.

(** ** Python values *)

(** The three Output Proxy classes imported from [couler.core.templates]:
    [Output] (plain value) and its subclasses [OutputArtifact] and
    [OutputJob]. *)
Inductive OutputKind : Set := KOutput | KOutputArtifact | KOutputJob.

(** An Output Proxy: producing step, producing template, field selector. *)
Record Output : Set := mkOutput {
  out_kind : OutputKind;
  out_step : string;
  out_template : string;
  out_field : string
}.

(** Dynamically typed Python values as the three functions see them.  A
    [dict] is an association list in insertion order with string keys. *)
Inductive pyval : Set :=
| PNone
| PBool (b : bool)
| PInt (z : Z)
| PStr (s : string)
| POutput (o : Output)
| PList (l : list pyval)
| PDict (d : list (string * pyval)).

#[global] Instance OutputKind_eq_dec : EqDecision OutputKind.
Proof. solve_decision. Defined.

#[global] Instance Output_eq_dec : EqDecision Output.
Proof. solve_decision. Defined.

Fixpoint pyval_eq_dec (a b : pyval) {struct a} : {a = b} + {a <> b}.
Proof.
  refine (
    match a, b with
    | PNone, PNone => left eq_refl
    | PBool x, PBool y => cast_if (decide (x = y))
    | PInt x, PInt y => cast_if (decide (x = y))
    | PStr x, PStr y => cast_if (decide (x = y))
    | POutput x, POutput y => cast_if (decide (x = y))
    | PList x, PList y =>
        cast_if ((fix go (l1 l2 : list pyval) : {l1 = l2} + {l1 <> l2} :=
                    match l1, l2 with
                    | [], [] => left eq_refl
                    | u :: us, v :: vs =>
                        cast_if_and (pyval_eq_dec u v) (go us vs)
                    | _, _ => right _
                    end) x y)
    | PDict x, PDict y =>
        cast_if ((fix go (l1 l2 : list (string * pyval))
                    : {l1 = l2} + {l1 <> l2} :=
                    match l1, l2 with
                    | [], [] => left eq_refl
                    | (k1, u) :: us, (k2, v) :: vs =>
                        cast_if_and3 (decide (k1 = k2)) (pyval_eq_dec u v)
                                     (go us vs)
                    | _, _ => right _
                    end) x y)
    | _, _ => right _
    end); clear pyval_eq_dec; try clear go; congruence.
Defined.

#[global] Instance pyval_eq_decision : EqDecision pyval := pyval_eq_dec.

(** [isinstance(v, (OutputArtifact, OutputJob))]. *)
Definition is_artifact_or_job (o : Output) : bool :=
  match out_kind o with
  | KOutputArtifact | KOutputJob => true
  | KOutput => false
  end.

Definition isinstance_OutputArtifact_OutputJob (v : pyval) : bool :=
  match v with POutput o => is_artifact_or_job o | _ => false end.

(** ** Exceptions and the state-and-exception monad *)

Inductive Exn : Set :=
| ValueError (msg : string)
| KeyError (key : string)
| TypeError
| AttributeError
| YAMLError
| DuplicateTemplateError
| InvalidArgumentError.

(** The two [ValueError]s raised by run_templates.py. *)
Definition MissingSourceError : Exn := ValueError "Input script can not be null".
Definition MissingManifestError : Exn :=
  ValueError "Input manifest can not be null".

Inductive outcome (A : Type) : Type :=
| Ok (a : A)
| Raise (e : Exn).
Arguments Ok {A} a.
Arguments Raise {A} e.

Definition obind {A B} (x : outcome A) (f : A -> outcome B) : outcome B :=
  match x with Ok a => f a | Raise e => Raise e end.

(** ** Python container protocol on [pyval] *)

Fixpoint assoc {V : Type} (k : string) (d : list (string * V)) : option V :=
  match d with
  | [] => None
  | (k', v) :: d' => if String.eqb k k' then Some v else assoc k d'
  end.

(** [d[k] = v] on a dict: an existing key keeps its position, a new key
    goes last. *)
Fixpoint assoc_set {V : Type} (k : string) (v : V) (d : list (string * V))
  : list (string * V) :=
  match d with
  | [] => [(k, v)]
  | (k', v') :: d' =>
      if String.eqb k k' then (k, v) :: d' else (k', v') :: assoc_set k v d'
  end.

(** [sub in s] for two strings. *)
Fixpoint str_contains (sub s : string) : bool :=
  String.prefix sub s ||
  match s with
  | EmptyString => false
  | String _ s' => str_contains sub s'
  end.

(** [container[key]] with a string key. *)
Definition py_getitem (container : pyval) (key : string) : outcome pyval :=
  match container with
  | PDict d =>
      match assoc key d with Some v => Ok v | None => Raise (KeyError key) end
  | _ => Raise TypeError
  end.

(** [container[key] = v] with a string key; the result is the container
    after the assignment. *)
Definition py_setitem (container : pyval) (key : string) (v : pyval)
  : outcome pyval :=
  match container with
  | PDict d => Ok (PDict (assoc_set key v d))
  | _ => Raise TypeError
  end.

(** [key in container] with a string key. *)
Definition py_contains (key : string) (container : pyval) : outcome bool :=
  match container with
  | PDict d => Ok (bool_decide (is_Some (assoc key d)))
  | PList l => Ok (bool_decide (PStr key ∈ l))
  | PStr s => Ok (str_contains key s)
  | _ => Raise TypeError
  end.

(** ** Templates, steps and the module state of [couler.core.states] *)

(** Keyword arguments of the [Script(...)] constructor call. *)
Record Script : Set := mkScript {
  s_name : string;
  s_image : pyval;
  s_command : pyval;
  s_source : pyval;
  s_env : pyval;
  s_secret : pyval;
  s_resources : pyval;
  s_timeout : pyval;
  s_retry : pyval;
  s_image_pull_policy : pyval;
  s_pool : pyval;
  s_daemon : pyval
}.

(** Keyword arguments of the [Container(...)] constructor call. *)
Record Container : Set := mkContainer {
  c_name : string;
  c_image : pyval;
  c_command : pyval;
  c_args : pyval;
  c_env : pyval;
  c_secret : pyval;
  c_resources : pyval;
  c_image_pull_policy : pyval;
  c_retry : pyval;
  c_timeout : pyval;
  c_output : pyval;
  c_input : list pyval;
  c_pool : pyval;
  c_enable_ulogfs : pyval;
  c_daemon : pyval;
  c_volume_mounts : pyval
}.

(** Keyword arguments of the [Job(...)] constructor call. *)
Record Job : Set := mkJob {
  j_name : string;
  j_args : pyval;
  j_action : string;
  j_manifest : string;
  j_set_owner_reference : pyval;
  j_success_condition : pyval;
  j_failure_condition : pyval;
  j_timeout : pyval;
  j_retry : pyval;
  j_pool : pyval
}.

Inductive Template : Set :=
| TScript (t : Script)
| TContainer (t : Container)
| TJob (t : Job).

Definition template_name (t : Template) : string :=
  match t with
  | TScript t => s_name t
  | TContainer t => c_name t
  | TJob t => j_name t
  end.

#[global] Instance Script_eq_dec : EqDecision Script.
Proof. solve_decision. Defined.

#[global] Instance Container_eq_dec : EqDecision Container.
Proof. solve_decision. Defined.

#[global] Instance Job_eq_dec : EqDecision Job.
Proof. solve_decision. Defined.

#[global] Instance Template_eq_dec : EqDecision Template.
Proof. solve_decision. Defined.

(** One invocation instance of a template. *)
Record Step : Set := mkStep {
  step_name : string;
  step_template : string;
  step_args : pyval;
  step_dependencies : list string;
  step_inputs : list Output
}.

(** [states.workflow]: templates in first-registration order, steps in
    append order. *)
Record Workflow : Set := mkWorkflow {
  templates : list (string * Template);
  steps : list Step
}.

(** The module globals of [couler.core.states] the three functions touch.
    [_steps_outputs] is a dict whose keys are step names, or [None] when a
    caller's absent [step_name] is used as the key. *)
Record States : Type := mkStates {
  workflow : Workflow;
  _outputs_tmp : option (list pyval);
  _steps_outputs : gmap (option string) pyval
}.

Definition M (A : Type) : Type := States -> outcome A * States.

Definition ret {A} (a : A) : M A := fun st => (Ok a, st).
Definition raise {A} (e : Exn) : M A := fun st => (Raise e, st).
Definition bind {A B} (m : M A) (f : A -> M B) : M B :=
  fun st =>
    match m st with
    | (Ok a, st') => f a st'
    | (Raise e, st') => (Raise e, st')
    end.
Definition lift {A} (x : outcome A) : M A := fun st => (x, st).

Notation "'let*' x ':=' m 'in' k" := (bind m (fun x => k))
  (at level 10, x pattern, m at level 100, k at level 200).

(** Reading [states._outputs_tmp]. *)
Definition get_outputs_tmp : M (option (list pyval)) :=
  fun st => (Ok (_outputs_tmp st), st).

(** [n] successive invocations of the same call; the pass stops at the
    first exception. *)
Fixpoint invoke_times {A} (n : nat) (call : M A) : M (list A) :=
  match n with
  | O => ret []
  | S k =>
      let* r := call in
      let* rs := invoke_times k call in
      ret (r :: rs)
  end.

(** ** Template registry *)

(** Modelled from the spec: [states.workflow.get_template], the registry's
    [get_or_none(name)]; the registry itself is not among the sources. *)
Definition get_template (name : string) : M (option Template) :=
  fun st => (Ok (assoc name (templates (workflow st))), st).

(** Modelled from the spec: [states.workflow.add_template], the registry's
    [register(template)]: a new name is appended in registration order, an
    identical payload under a present name is a no-op, a different payload
    fails with [DuplicateTemplateError]. *)
Definition add_template (t : Template) : M unit :=
  fun st =>
    let w := workflow st in
    match assoc (template_name t) (templates w) with
    | None =>
        (Ok tt,
         mkStates (mkWorkflow (templates w ++ [(template_name t, t)])%list
                              (steps w))
                  (_outputs_tmp st) (_steps_outputs st))
    | Some t' =>
        if decide (t' = t) then (Ok tt, st)
        else (Raise DuplicateTemplateError, st)
    end.

(** ** Step graph assembler *)

(** Decimal rendering of a counter. *)
Definition decimal (n : nat) : string :=
  NilEmpty.string_of_uint (Nat.to_uint n).

(** Modelled from the spec: the per-template counter of the assembler,
    the number of steps already recorded for a template. *)
Definition instances (template : string) (l : list Step) : nat :=
  length (List.filter (fun s => String.eqb (step_template s) template) l).

(** Modelled from the spec: step-name resolution of the assembler.  The
    first instance of a template carries the template's own name; a call
    that repeats gets the suffix [-k], [k] the per-template counter (the
    second instance of [s1] is [s1-2]). *)
Definition instance_name (template : string) (seen : nat) : string :=
  match seen with
  | O => template
  | S _ => template +:+ "-" +:+ decimal (S seen)
  end.

(** Modelled from the spec: the Output Proxies found by scanning [args],
    nested one-level sequences included. *)
Definition proxies_in (l : list pyval) : list Output :=
  flat_map (fun v => match v with POutput o => [o] | _ => [] end) l.

(** Modelled from the spec: the scan of the whole [args] value, a bare
    proxy counting as found. *)
Definition scan_args (args : pyval) : list Output :=
  match args with
  | POutput o => [o]
  | PList l =>
      flat_map (fun v => match v with
                         | POutput o => [o]
                         | PList l' => proxies_in l'
                         | _ => []
                         end) l
  | _ => []
  end.

(** Modelled from the spec: a step of that name is in the graph. *)
Definition step_exists (name : string) (l : list Step) : bool :=
  existsb (fun s => String.eqb (step_name s) name) l.

(** Modelled from the spec: implicit chaining.  When [args] was not
    supplied and the staging area is non-empty, the staged proxies become
    the argument list and the staging area is cleared; otherwise both stay
    as they are. *)
Definition implicit_args (args : pyval) (tmp : option (list pyval))
  : pyval * option (list pyval) :=
  match args, tmp with
  | PNone, Some (p :: ps) => (PList (p :: ps), None)
  | _, _ => (args, tmp)
  end.

(** Modelled from the spec: [step_update_utils.update_step], which is not
    among the sources (contract of the Step Graph Assembler):
    resolve the step name; when [args] was not supplied and the staging
    area is non-empty, take the staged proxies as the argument list and
    clear the staging area; record a dependency on the producing step of
    every proxy found in the arguments and every artifact or resource proxy
    as a required input, failing with [InvalidArgumentError] when such a
    proxy's producing step is not in the graph; append the step; return its
    name.  The explicit step name and the call site have already been
    folded into [template_name] by the caller. *)
Definition update_step (template_name : string) (args : pyval)
    (explicit_step_name : option string) (caller_line : Z) : M string :=
  fun st =>
    let w := workflow st in
    let resolved_step_name :=
      instance_name template_name (instances template_name (steps w)) in
    let '(args, staging) := implicit_args args (_outputs_tmp st) in
    let found := scan_args args in
    let inputs := List.filter is_artifact_or_job found in
    if forallb (fun o => step_exists (out_step o) (steps w)) inputs then
      let step := mkStep resolved_step_name template_name args
                         (map out_step found) inputs in
      (Ok resolved_step_name,
       mkStates (mkWorkflow (templates w) (steps w ++ [step])%list)
                staging (_steps_outputs st))
    else (Raise InvalidArgumentError, st).

(** [states._steps_outputs[key] = rets]. *)
Definition store_steps_output (key : option string) (rets : pyval) : M unit :=
  fun st =>
    (Ok tt,
     mkStates (workflow st) (_outputs_tmp st)
              (<[key := rets]> (_steps_outputs st))).

(** ** Collaborators of run_templates.py *)

(** Pure helpers that run_templates.py calls and that live outside it:
    [pyfunc.argo_safe_name], [states.get_secret], the three proxy builders
    of [pyfunc], [Template.to_dict().get("outputs", None)],
    [pyfunc.generate_parameters_run_job], [yaml.safe_load] and
    [pyaml.dump].  Nothing is assumed about what they compute.
    [job_output] receives the caller's [step_name], which may be [None]. *)
Class Collaborators : Type := {
  argo_safe_name : string -> string;
  get_secret : pyval -> pyval;
  script_output : string -> string -> pyval;
  container_output : string -> string -> pyval -> pyval;
  job_output : option string -> string -> pyval;
  to_dict_outputs : Template -> pyval;
  generate_parameters_run_job : pyval -> pyval * pyval * pyval;
  safe_load : string -> outcome pyval;
  dump : pyval -> string
}.

(** The result of [pyfunc.invocation_location()]: the defining function's
    name and the caller's line. *)
Definition call_site : Set := (string * Z)%type.

(** ** run_container: argument normalisation (lines 128-156) *)

(** [if not isinstance(args, list): args = [args]]. *)
Definition promote_scalar (args : pyval) : list pyval :=
  match args with PList l => l | v => [v] end.

(** [args = args[0]] when [args[0]] is a non-empty list whose first
    element is an [Output]. *)
Definition flatten_list_of_list (args : list pyval) : list pyval :=
  match args with
  | PList (POutput o :: rest) :: _ => POutput o :: rest
  | _ => args
  end.

(** [args.extend(states._outputs_tmp)] when the staging area is set. *)
Definition extend_outputs_tmp (args : list pyval) (tmp : option (list pyval))
  : list pyval :=
  match tmp with Some staged => (args ++ staged)%list | None => args end.

(** The body of the [if get_template(func_name) is None] branch up to the
    [Container(...)] call: the values of [args] and [input] it ends with.
    [args.extend] and [input.append] grow the caller's own list objects;
    the lists are taken here by value, as they stand after the growth, and
    [args], [input] and [_outputs_tmp] are taken to be distinct objects. *)
Definition normalize_args (args : pyval) (input : option (list pyval))
    (tmp : option (list pyval)) : pyval * list pyval :=
  let input := match input with None => [] | Some l => l end in
  let args := match args, tmp with
              | PNone, Some _ => PList []
              | _, _ => args
              end in
  match args with
  | PNone => (PNone, input)
  | _ =>
      let l := promote_scalar args in
      let l := flatten_list_of_list l in
      let l := extend_outputs_tmp l tmp in
      (PList l, (input ++ List.filter isinstance_OutputArtifact_OutputJob l)%list)
  end.

(** ** run_job: manifest patching (lines 237-248) *)

Definition owner_label : string := "argo.step.owner".
Definition env_path : list string := ["spec"; "env"].
Definition owner_label_path : list string :=
  ["metadata"; "labels"; owner_label].
Definition pod_name_reference : pyval := PStr "'{{pod.name}}'".

(** [manifest_dict["spec"]["env"] = envs], then the rewrite of the
    [argo.step.owner] label when [metadata] has it; the result is
    [manifest_dict] after both assignments.  The parsed manifest is a tree:
    no two fields share one dict object. *)
Definition patch_manifest (manifest_dict envs : pyval) : outcome pyval :=
  obind (py_getitem manifest_dict "spec") (fun spec =>
  obind (py_setitem spec "env" envs) (fun spec =>
  obind (py_setitem manifest_dict "spec" spec) (fun manifest_dict =>
  obind (py_getitem manifest_dict "metadata") (fun metadata =>
  obind (py_contains "labels" metadata) (fun has_labels =>
  if has_labels then
    obind (py_getitem metadata "labels") (fun labels =>
    obind (py_contains owner_label labels) (fun has_owner =>
    if has_owner then
      obind (py_setitem labels owner_label pod_name_reference) (fun labels =>
      obind (py_setitem metadata "labels" labels) (fun metadata =>
      py_setitem manifest_dict "metadata" metadata))
    else Ok manifest_dict))
  else Ok manifest_dict))))).

(** Field lookup along a path of dict keys. *)
Fixpoint py_path (path : list string) (v : pyval) : option pyval :=
  match path with
  | [] => Some v
  | k :: path' =>
      match v with
      | PDict d =>
          match assoc k d with
          | Some v' => py_path path' v'
          | None => None
          end
      | _ => None
      end
  end.

(** Two paths where one extends the other. *)
Definition related (p q : list string) : Prop :=
  p `prefix_of` q \/ q `prefix_of` p.

(** ** The three step-defining calls *)

Section run_templates.
Context `{Collaborators}.

Definition resolve_func_name (loc : call_site) (step_name : option string)
  : string :=
  match step_name with
  | Some s => argo_safe_name s
  | None => fst loc
  end.

(** [env["inferred_outputs"] = states._outputs_tmp] when both are set
    (lines 229-230); the result is [env] afterwards. *)
Definition infer_outputs (env : pyval) (tmp : option (list pyval))
  : outcome pyval :=
  match tmp, env with
  | None, _ | _, PNone => Ok env
  | Some staged, _ => py_setitem env "inferred_outputs" (PList staged)
  end.

(** The [if env is not None] block of [run_job] (lines 236-250): the
    manifest text handed to [Job(...)]. *)
Definition update_manifest (manifest : string) (env envs : pyval)
  : outcome string :=
  match env with
  | PNone => Ok manifest
  | _ =>
      obind (safe_load manifest) (fun manifest_dict =>
      obind (patch_manifest manifest_dict envs) (fun manifest_dict =>
      Ok (dump manifest_dict)))
  end.

Definition run_script (loc : call_site)
    (image command source env resources secret timeout retry : pyval)
    (step_name : option string) (image_pull_policy pool daemon : pyval)
  : M pyval :=
  let caller_line := snd loc in
  let func_name := resolve_func_name loc step_name in
  let* registered := get_template func_name in
  let* _ :=
    match registered with
    | None =>
        match source with
        | PNone => raise MissingSourceError
        | _ =>
            add_template
              (TScript (mkScript func_name image command source env
                          (get_secret secret) resources timeout retry
                          image_pull_policy pool daemon))
        end
    | Some _ => ret tt
    end in
  let* step_name := update_step func_name PNone step_name caller_line in
  let rets := script_output step_name func_name in
  let* _ := store_steps_output (Some step_name) rets in
  ret rets.

Definition run_container (loc : call_site)
    (image command args output : pyval) (input : option (list pyval))
    (env secret resources timeout retry : pyval)
    (step_name : option string)
    (image_pull_policy pool enable_ulogfs daemon volume_mounts : pyval)
  : M pyval :=
  let caller_line := snd loc in
  let func_name := resolve_func_name loc step_name in
  let* registered := get_template func_name in
  let* args :=
    match registered with
    | None =>
        let* tmp := get_outputs_tmp in
        let '(args, input) := normalize_args args input tmp in
        let* _ :=
          add_template
            (TContainer (mkContainer func_name image command args env
                           (get_secret secret) resources image_pull_policy
                           retry timeout output input pool enable_ulogfs
                           daemon volume_mounts)) in
        ret args
    | Some _ => ret args
    end in
  let* step_name := update_step func_name args step_name caller_line in
  let* template := get_template func_name in
  match template with
  | None => raise AttributeError
  | Some template =>
      let _output := to_dict_outputs template in
      let rets := container_output step_name func_name _output in
      let* _ := store_steps_output (Some step_name) rets in
      ret rets
  end.

Definition run_job (loc : call_site) (manifest : option string)
    (success_condition failure_condition timeout retry : pyval)
    (step_name : option string) (pool env set_owner_reference : pyval)
  : M pyval :=
  match manifest with
  | None => raise MissingManifestError
  | Some manifest =>
      let caller_line := snd loc in
      let func_name := resolve_func_name loc step_name in
      let* registered := get_template func_name in
      let* args :=
        match registered with
        | None =>
            let* tmp := get_outputs_tmp in
            let* env := lift (infer_outputs env tmp) in
            let '(envs, parameters, args) := generate_parameters_run_job env in
            let* manifest := lift (update_manifest manifest env envs) in
            let* _ :=
              add_template
                (TJob (mkJob func_name args "create" manifest
                         set_owner_reference success_condition
                         failure_condition timeout retry pool)) in
            ret args
        | Some _ => ret (PList [])
        end in
      let* _ := update_step func_name args step_name caller_line in
      let rets := job_output step_name func_name in
      let* _ := store_steps_output step_name rets in
      ret rets
  end.

End run_templates.

(** ** Assignment along a path (used to describe [patch_manifest]) *)

(** [v[k1][k2]...[kn] = x] through a chain of existing dicts. *)
Fixpoint set_path (path : list string) (x : pyval) (v : pyval)
  : option pyval :=
  match path, v with
  | [], _ => None
  | [k], PDict d => Some (PDict (assoc_set k x d))
  | k :: path', PDict d =>
      match assoc k d with
      | Some child =>
          match set_path path' x child with
          | Some child' => Some (PDict (assoc_set k child' d))
          | None => None
          end
      | None => None
      end
  | _, _ => None
  end.

(** The elements of a Python list value. *)
Definition elements (v : pyval) : list pyval :=
  match v with PList l => l | _ => [] end.

(** ** A concrete set of collaborators, for running the calls *)

Module demo.

Fixpoint render (v : pyval) : string :=
  match v with
  | PNone => "null"
  | PBool true => "true"
  | PBool false => "false"
  | PInt z => NilEmpty.string_of_int (Z.to_int z)
  | PStr s => s
  | POutput o => "{{steps." +:+ out_step o +:+ "." +:+ out_field o +:+ "}}"
  | PList l =>
      "[" +:+
      (fix items (l : list pyval) : string :=
         match l with
         | [] => ""
         | x :: xs =>
             render x +:+ match xs with [] => "" | _ => ", " end +:+ items xs
         end) l +:+ "]"
  | PDict d =>
      "{" +:+
      (fix items (d : list (string * pyval)) : string :=
         match d with
         | [] => ""
         | (k, x) :: xs =>
             k +:+ ": " +:+ render x +:+
             match xs with [] => "" | _ => ", " end +:+ items xs
         end) d +:+ "}"
  end.

(** One [{name: k, value: v}] entry per key of the environment mapping. *)
Definition env_entries (env : pyval) : pyval :=
  match env with
  | PDict d =>
      PList (map (fun kv => PDict [("name", PStr (fst kv)); ("value", snd kv)])
                 d)
  | _ => PList []
  end.

(** A job manifest text and the dict it parses to. *)
Definition pi_manifest : string :=
  "{metadata: {name: pi, labels: {argo.step.owner: me, app: pi}}, spec: {env: [{name: A, value: 1}], backoffLimit: 4}}".

Definition pi_manifest_dict : pyval :=
  PDict [("metadata",
          PDict [("name", PStr "pi");
                 ("labels", PDict [("argo.step.owner", PStr "me");
                                   ("app", PStr "pi")])]);
         ("spec",
          PDict [("env", PList [PDict [("name", PStr "A");
                                       ("value", PInt 1)]]);
                 ("backoffLimit", PInt 4)])].

Definition collaborators : Collaborators := {|
  argo_safe_name := fun s => s;
  get_secret := fun v => v;
  script_output := fun step template =>
    POutput (mkOutput KOutput step template "result");
  container_output := fun step template _output =>
    match _output with
    | PNone => PNone
    | _ => POutput (mkOutput KOutputArtifact step template "artifact")
    end;
  job_output := fun step template =>
    POutput (mkOutput KOutputJob
               (match step with Some s => s | None => "None" end)
               template "job-name");
  to_dict_outputs := fun t =>
    match t with TContainer c => c_output c | _ => PNone end;
  generate_parameters_run_job := fun env => (env_entries env, PList [], PList []);
  safe_load := fun text =>
    if String.eqb text pi_manifest then Ok pi_manifest_dict
    else Raise YAMLError;
  dump := render
|}.

(** A build that has not run any step-defining call yet. *)
Definition initial : States := mkStates (mkWorkflow [] []) None ∅.

Definition with_outputs_tmp (staged : list pyval) : States :=
  mkStates (mkWorkflow [] []) (Some staged) ∅.

Definition here : call_site := ("train", 12%Z).

(** A build in which a step [producer] has already run and template [s1]
    is registered. *)
Definition artifact : Output :=
  mkOutput KOutputArtifact "producer" "producer" "model".

Definition underway : States :=
  mkStates
    (mkWorkflow
       [("producer",
         TScript (mkScript "producer" (PStr "python:3.6") PNone
                    (PStr "print(1)") PNone PNone PNone PNone PNone PNone
                    PNone (PBool false)));
        ("s1",
         TContainer (mkContainer "s1" (PStr "alpine") PNone PNone PNone PNone
                       PNone PNone PNone PNone PNone [] PNone (PBool true)
                       (PBool false) PNone))]
       [mkStep "producer" "producer" PNone [] []])
    None ∅.

(** [run_container] under these collaborators, with everything but
    [args], [input] and [step_name] left at its default. *)
Definition container (args : pyval) (input : option (list pyval))
    (step_name : option string) : M pyval :=
  @run_container collaborators here (PStr "alpine") PNone args PNone input
    PNone PNone PNone PNone PNone step_name PNone PNone (PBool true)
    (PBool false) PNone.

(** [run_job] under these collaborators on [pi_manifest]. *)
Definition job (step_name : option string) (env : pyval) : M pyval :=
  @run_job collaborators here (Some pi_manifest) (PStr "status.succeeded > 0")
    (PStr "status.failed > 3") PNone PNone step_name PNone env (PBool true).

(** [run_script] under these collaborators. *)
Definition script (source : pyval) (step_name : option string) : M pyval :=
  @run_script collaborators here (PStr "python:3.6") PNone source PNone PNone
    PNone PNone PNone step_name PNone PNone (PBool false).

(** [pi_manifest_dict] after [patch_manifest] with the entries generated
    from the environment mapping [{B: 2}]. *)
Definition pi_manifest_patched : pyval :=
  PDict [("metadata",
          PDict [("name", PStr "pi");
                 ("labels", PDict [("argo.step.owner", PStr "'{{pod.name}}'");
                                   ("app", PStr "pi")])]);
         ("spec",
          PDict [("env", PList [PDict [("name", PStr "B");
                                       ("value", PStr "2")]]);
                 ("backoffLimit", PInt 4)])].

Definition proxy_a : Output := mkOutput KOutput "producer-a" "producer-a" "result".
Definition proxy_b : Output := mkOutput KOutput "producer-b" "producer-b" "result".

End demo.

(** ** What a step-defining call leaves behind *)

(** The registry after a call resolved to [name]: untouched when [name] was
    registered, one template named [name] appended otherwise. *)
Definition registry_after (name : string) (st st' : States) : Prop :=
  match assoc name (templates (workflow st)) with
  | Some _ => templates (workflow st') = templates (workflow st)
  | None =>
      exists t, template_name t = name /\
        templates (workflow st') =
        (templates (workflow st) ++ [(name, t)])%list
  end.

(** One step of template [name] appended, named by the assembler. *)
Definition step_appended (name : string) (st st' : States) : Prop :=
  exists step,
    steps (workflow st') = (steps (workflow st) ++ [step])%list /\
    step_template step = name /\
    step_name step = instance_name name (instances name (steps (workflow st))).

Definition defines_step {A} (name : string) (call : M A) : Prop :=
  forall st r st', call st = (Ok r, st') ->
    registry_after name st st' /\ step_appended name st st'.

(** Outcome of [n] invocations resolved to [name], none registered before:
    exactly one template registered, exactly [n] steps appended, their
    names pairwise distinct. *)
Definition one_template_n_steps (name : string) (n : nat) (st st' : States)
  : Prop :=
  exists t new_steps,
    template_name t = name /\
    templates (workflow st') = (templates (workflow st) ++ [(name, t)])%list /\
    steps (workflow st') = (steps (workflow st) ++ new_steps)%list /\
    length new_steps = n /\
    Forall (fun s => step_template s = name) new_steps /\
    NoDup (map step_name new_steps).

(** The first of [n] invocations registers the template; the ones after
    it find it present and leave the registry as it is. *)
Definition registered_by_first {A} (name : string) (n : nat) (call : M A)
    (st st' : States) : Prop :=
  exists t r st1 rs,
    call st = (Ok r, st1) /\
    templates (workflow st1) = (templates (workflow st) ++ [(name, t)])%list /\
    invoke_times (pred n) call st1 = (Ok rs, st') /\
    templates (workflow st') = templates (workflow st1).

(** The staging area holds nothing. *)
Definition staging_cleared (st : States) : Prop :=
  _outputs_tmp st = None \/ _outputs_tmp st = Some [].

(** ** escape_sql, character by character *)

Module sqlflow_chars.
Import sqlflow.

(** One of the four characters [escape_sql] replaces. *)
Definition is_special (c : ascii) : bool :=
  Ascii.eqb c backslash || Ascii.eqb c dquote ||
  Ascii.eqb c backtick || Ascii.eqb c dollar.

(** A special character behind one backslash, any other character as it
    is. *)
Definition escape_char (c : ascii) : string :=
  if is_special c then String backslash (str1 c) else str1 c.

Fixpoint escape_chars (s : string) : string :=
  match s with
  | EmptyString => EmptyString
  | String c s' => escape_char c +:+ escape_chars s'
  end.

Fixpoint count_special (s : string) : nat :=
  match s with
  | EmptyString => 0
  | String c s' => (if is_special c then 1 else 0) + count_special s'
  end.

(** Reading left to right, every backslash is followed by a special
    character, which it covers, and no special character stands
    uncovered. *)
Fixpoint well_escaped (s : string) : bool :=
  match s with
  | EmptyString => true
  | String c s' =>
      if Ascii.eqb c backslash then
        match s' with
        | EmptyString => false
        | String d s'' => is_special d && well_escaped s''
        end
      else negb (is_special c) && well_escaped s'
  end.

(** Dropping each covering backslash. *)
Fixpoint unescape (s : string) : string :=
  match s with
  | EmptyString => EmptyString
  | String c s' =>
      if Ascii.eqb c backslash then
        match s' with
        | EmptyString => str1 c
        | String d s'' => String d (unescape s'')
        end
      else String c (unescape s')
  end.

End sqlflow_chars.

(** ** The sqlflow step (sqlflow.py) *)

(** Python built-ins the [sqlflow] step calls: [os.path.dirname] and the
    [str()] of a list, dict or proxy object.  Nothing is assumed about
    them. *)
Class Builtins : Type := {
  dirname : string -> string;
  str_object : pyval -> string
}.

Section sqlflow_step.
Context `{Collaborators} `{Builtins}.

(** What [%s] prints for a value. *)
Definition py_str (v : pyval) : string :=
  match v with
  | PNone => "None"
  | PBool true => "True"
  | PBool false => "False"
  | PInt z => NilEmpty.string_of_int (Z.to_int z)
  | PStr s => s
  | _ => str_object v
  end.

(** [not log_file]: no log file, or an empty name. *)
Definition no_log_file (log_file : option string) : bool :=
  match log_file with
  | None | Some EmptyString => true
  | Some _ => false
  end.

(** [step -e "%s"] around the escaped statement. *)
Definition step_command (sql : string) : string :=
  "step -e " +:+ sqlflow.str1 sqlflow.dquote +:+ sqlflow.escape_sql sql
  +:+ sqlflow.str1 sqlflow.dquote.

(** [exit_time_wait]: [0], or the environment's
    [SQLFLOW_WORKFLOW_EXIT_TIME_WAIT] with default ["0"] when [env] is a
    dict. *)
Definition exit_time_wait (env : pyval) : pyval :=
  match env with
  | PDict d =>
      match assoc "SQLFLOW_WORKFLOW_EXIT_TIME_WAIT" d with
      | Some v => v
      | None => PStr "0"
      end
  | _ => PInt 0
  end.

(** The shell command [sqlflow] builds (lines 22-40). *)
Definition sqlflow_command (sql : string) (env : pyval)
    (log_file : option string) : string :=
  match log_file with
  | None | Some EmptyString => step_command sql
  | Some log_file =>
      let log_dir := dirname log_file in
      "if [[ -f /opt/sqlflow/init_step_container.sh ]]; then bash /opt/sqlflow/init_step_container.sh; fi"
      +:+ " && set -o pipefail"
      +:+ " && mkdir -p " +:+ log_dir
      +:+ " && (" +:+ step_command sql +:+ " 2>&1 | tee " +:+ log_file +:+ ")"
      +:+ " && sleep " +:+ py_str (exit_time_wait env)
  end.

(** [sqlflow]: one [run_container] call with the command, every other
    parameter of [run_container] at its default; the function has no
    [return], so the caller gets [None]. *)
Definition sqlflow (loc : call_site) (sql : string)
    (image env secret resources : pyval) (log_file : option string)
  : M pyval :=
  let command := sqlflow_command sql env log_file in
  let* _ :=
    run_container loc image (PStr command) PNone PNone None env secret
      resources PNone PNone None PNone PNone (PBool true) (PBool false)
      PNone in
  ret PNone.

End sqlflow_step.

(** Concrete built-ins and further collaborators, for running the calls. *)
Module demo_more.

Definition builtins : Builtins := {|
  dirname := fun p => "/var/log";
  str_object := demo.render
|}.

(** Collaborators whose [safe_load] yields a manifest with [metadata]
    only. *)
Definition bare_collaborators : Collaborators := {|
  argo_safe_name := fun s => s;
  get_secret := fun v => v;
  script_output := @script_output demo.collaborators;
  container_output := @container_output demo.collaborators;
  job_output := @job_output demo.collaborators;
  to_dict_outputs := @to_dict_outputs demo.collaborators;
  generate_parameters_run_job := fun env =>
    (demo.env_entries env, PList [], PList []);
  safe_load := fun text => Ok (PDict [("metadata", PDict [])]);
  dump := demo.render
|}.

End demo_more.


(* ===================================================================== *)
(** * Part II: properties *)
(* ===================================================================== *)

(** ** escape_sql *)

Module sqlflow_facts.
Import sqlflow.

Lemma prefix_empty (s : string) : String.prefix EmptyString s = true.
Proof. destruct s; reflexivity. Qed.

(** Python's [replace] with a one-character pattern replaces each
    occurrence of that character. *)
Lemma replace_single (c : ascii) (r s : string) :
  replace (str1 c) r s = replace_each c r s.
Proof.
  unfold replace, str1.
  induction s as [|a s IH]; simpl; [reflexivity|].
  destruct (ascii_dec c a) as [->|Hne].
  - rewrite Ascii.eqb_refl, prefix_empty, IH. reflexivity.
  - assert (Ascii.eqb a c = false) as ->
      by (apply Ascii.eqb_neq; congruence).
    rewrite IH. reflexivity.
Qed.

Lemma replace_each_absent (c : ascii) (r s : string) :
  occurs c s = false -> replace_each c r s = s.
Proof.
  induction s as [|a s IH]; simpl; [reflexivity|].
  intros [Ha Hs]%orb_false_iff. rewrite Ha, IH by assumption. reflexivity.
Qed.

(** C10. [escape_sql s] is [s] after four sequential replacements:
    every backslash by two backslashes, then every double quote by
    backslash-double-quote, then every backtick by backslash-backtick, then
    every dollar sign by backslash-dollar; a string with none of the four
    characters comes back unchanged. *)
Theorem escape_sql_sequential_replacements (s : string) :
  escape_sql s = escape_sql_sequential s /\
  (has_special s = false -> escape_sql s = s).
Proof.
  assert (escape_sql s = escape_sql_sequential s) as Heq.
  { unfold escape_sql, escape_sql_sequential.
    rewrite !replace_single. reflexivity. }
  split; [exact Heq|].
  rewrite Heq. unfold has_special, escape_sql_sequential.
  intros Hs.
  apply orb_false_iff in Hs as [Hs Hdollar].
  apply orb_false_iff in Hs as [Hs Htick].
  apply orb_false_iff in Hs as [Hback Hquote].
  rewrite (replace_each_absent backslash) by assumption.
  rewrite (replace_each_absent dquote) by assumption.
  rewrite (replace_each_absent backtick) by assumption.
  apply replace_each_absent. assumption.
Qed.

Lemma escape_sql_sequential_replacements_witness :
  has_special "SELECT * FROM iris.train" = false /\
  escape_sql "SELECT * FROM iris.train" = "SELECT * FROM iris.train".
Proof.
  split; [reflexivity|].
  apply (proj2 (escape_sql_sequential_replacements "SELECT * FROM iris.train")).
  reflexivity.
Defined.

(** The order of the four passes matters: backslashes are doubled before
    the other three passes insert theirs. *)
Example escape_sql_mixed :
  escape_sql (String backslash (String dollar (str1 dquote)))
  = String backslash (String backslash
      (String backslash (String dollar
         (String backslash (str1 dquote))))).
Proof. reflexivity. Qed.

End sqlflow_facts.

(** ** Association lists *)

Lemma assoc_app_None {V} (k : string) (d1 d2 : list (string * V)) :
  assoc k d1 = None -> assoc k (d1 ++ d2)%list = assoc k d2.
Proof.
  induction d1 as [|[k' v] d1 IH]; simpl; [reflexivity|].
  destruct (String.eqb k k'); [discriminate|exact IH].
Qed.

Lemma assoc_set_same {V} (k : string) (v : V) (d : list (string * V)) :
  assoc k (assoc_set k v d) = Some v.
Proof.
  induction d as [|[k' v'] d IH]; simpl.
  - rewrite String.eqb_refl. reflexivity.
  - destruct (String.eqb k k') eqn:E; simpl.
    + rewrite String.eqb_refl. reflexivity.
    + rewrite E. exact IH.
Qed.

Lemma assoc_set_other {V} (k k' : string) (v : V) (d : list (string * V)) :
  k' <> k -> assoc k' (assoc_set k v d) = assoc k' d.
Proof.
  intros Hne.
  induction d as [|[k0 v0] d IH]; simpl.
  - apply String.eqb_neq in Hne. rewrite Hne. reflexivity.
  - destruct (String.eqb k k0) eqn:E; simpl.
    + apply String.eqb_eq in E. subst k0.
      apply String.eqb_neq in Hne. rewrite Hne. reflexivity.
    + rewrite IH. reflexivity.
Qed.

(** ** The assembler and the registry *)

Section assembler_facts.

Lemma update_step_Ok (n : string) (a : pyval) (e : option string) (l : Z)
    (st st' : States) (r : string) :
  update_step n a e l st = (Ok r, st') ->
  let a' := fst (implicit_args a (_outputs_tmp st)) in
  r = instance_name n (instances n (steps (workflow st))) /\
  st' = mkStates
          (mkWorkflow (templates (workflow st))
             (steps (workflow st) ++
              [mkStep r n a' (map out_step (scan_args a'))
                      (List.filter is_artifact_or_job (scan_args a'))])%list)
          (snd (implicit_args a (_outputs_tmp st)))
          (_steps_outputs st).
Proof.
  unfold update_step.
  destruct (implicit_args a (_outputs_tmp st)) as [a' tmp']; simpl.
  destruct (forallb _ _); intros [= <- <-]. split; reflexivity.
Qed.

Lemma update_step_Raise (n : string) (a : pyval) (e : option string) (l : Z)
    (st st' : States) (x : Exn) :
  update_step n a e l st = (Raise x, st') ->
  x = InvalidArgumentError /\ st' = st.
Proof.
  unfold update_step.
  destruct (implicit_args a (_outputs_tmp st)) as [a' tmp']; simpl.
  destruct (forallb _ _); intros [= <- <-]. split; reflexivity.
Qed.

End assembler_facts.

Section run_templates_facts.
Context `{Collaborators}.

(** C8. [run_job] without a manifest raises [MissingManifestError] and the
    state it leaves is the state it was called in: no template registered,
    no step appended, nothing stored. *)
Theorem run_job_missing_manifest (loc : call_site)
    (success_condition failure_condition timeout retry : pyval)
    (step_name : option string) (pool env set_owner_reference : pyval)
    (st : States) :
  run_job loc None success_condition failure_condition timeout retry
          step_name pool env set_owner_reference st
  = (Raise MissingManifestError, st).
Proof. reflexivity. Qed.

(** *** run_script, branch by branch *)

Lemma add_template_fresh (t : Template) (st : States) :
  assoc (template_name t) (templates (workflow st)) = None ->
  add_template t st =
  (Ok tt,
   mkStates (mkWorkflow (templates (workflow st) ++ [(template_name t, t)])%list
                        (steps (workflow st)))
            (_outputs_tmp st) (_steps_outputs st)).
Proof. intros Hreg. unfold add_template. rewrite Hreg. reflexivity. Qed.

Lemma run_script_registered (loc : call_site)
    (image command source env resources secret timeout retry : pyval)
    (step_name : option string) (image_pull_policy pool daemon : pyval)
    (st : States) (t : Template) :
  let func_name := resolve_func_name loc step_name in
  assoc func_name (templates (workflow st)) = Some t ->
  run_script loc image command source env resources secret timeout retry
    step_name image_pull_policy pool daemon st
  = (let* resolved := update_step func_name PNone step_name (snd loc) in
     let rets := script_output resolved func_name in
     let* _ := store_steps_output (Some resolved) rets in
     ret rets) st.
Proof.
  intros func_name Hreg.
  unfold run_script, bind, get_template. simpl.
  fold func_name. rewrite Hreg. reflexivity.
Qed.

Lemma run_script_fresh_no_source (loc : call_site)
    (image command env resources secret timeout retry : pyval)
    (step_name : option string) (image_pull_policy pool daemon : pyval)
    (st : States) :
  assoc (resolve_func_name loc step_name) (templates (workflow st)) = None ->
  run_script loc image command PNone env resources secret timeout retry
    step_name image_pull_policy pool daemon st
  = (Raise MissingSourceError, st).
Proof.
  intros Hreg. unfold run_script, bind, get_template. simpl.
  rewrite Hreg. reflexivity.
Qed.

Lemma run_script_fresh (loc : call_site)
    (image command source env resources secret timeout retry : pyval)
    (step_name : option string) (image_pull_policy pool daemon : pyval)
    (st : States) :
  let func_name := resolve_func_name loc step_name in
  let template :=
    TScript (mkScript func_name image command source env (get_secret secret)
               resources timeout retry image_pull_policy pool daemon) in
  assoc func_name (templates (workflow st)) = None ->
  source <> PNone ->
  run_script loc image command source env resources secret timeout retry
    step_name image_pull_policy pool daemon st
  = (let* _ := add_template template in
     let* resolved := update_step func_name PNone step_name (snd loc) in
     let rets := script_output resolved func_name in
     let* _ := store_steps_output (Some resolved) rets in
     ret rets) st.
Proof.
  intros func_name template Hreg Hsource.
  unfold run_script, bind, get_template. simpl.
  fold func_name. rewrite Hreg.
  destruct source; try reflexivity. congruence.
Qed.

(** The two ways [run_script] can fail. *)
Lemma run_script_Raise (loc : call_site)
    (image command source env resources secret timeout retry : pyval)
    (step_name : option string) (image_pull_policy pool daemon : pyval)
    (st st' : States) (x : Exn) :
  run_script loc image command source env resources secret timeout retry
    step_name image_pull_policy pool daemon st = (Raise x, st') ->
  (x = MissingSourceError /\ source = PNone /\
   assoc (resolve_func_name loc step_name) (templates (workflow st)) = None /\
   st' = st) \/
  x = InvalidArgumentError.
Proof.
  destruct (assoc (resolve_func_name loc step_name) (templates (workflow st)))
    as [t|] eqn:Hreg.
  - rewrite (run_script_registered _ _ _ _ _ _ _ _ _ _ _ _ _ _ _ Hreg).
    unfold bind.
    destruct (update_step _ _ _ _ st) as [[sn|y] st1] eqn:Hup;
      [discriminate|].
    intros [= <- <-]. right.
    apply update_step_Raise in Hup as [-> _]. reflexivity.
  - destruct (decide (source = PNone)) as [->|Hsource].
    + rewrite run_script_fresh_no_source by exact Hreg.
      intros [= <- <-]. left. repeat split.
    + rewrite run_script_fresh by assumption.
      unfold bind. rewrite add_template_fresh by exact Hreg.
      match goal with |- context [update_step ?a ?b ?c ?d ?s] =>
        destruct (update_step a b c d s) as [[sn|y] st1] eqn:Hup end;
        [discriminate|].
      intros [= <- <-]. right.
      apply update_step_Raise in Hup as [-> _]. reflexivity.
Qed.

(** C4. [run_script] raises [MissingSourceError] exactly when no source is
    given and no template is registered under the resolved name (a
    registered template is reused without looking at [source]); when it
    does, the state is the one it was called in: nothing registered, no
    step appended. *)
Theorem run_script_missing_source (loc : call_site)
    (image command source env resources secret timeout retry : pyval)
    (step_name : option string) (image_pull_policy pool daemon : pyval)
    (st : States) :
  let call := run_script loc image command source env resources secret
                timeout retry step_name image_pull_policy pool daemon in
  (fst (call st) = Raise MissingSourceError <->
   source = PNone /\
   assoc (resolve_func_name loc step_name) (templates (workflow st)) = None)
  /\
  (fst (call st) = Raise MissingSourceError -> snd (call st) = st).
Proof.
  intros call.
  assert (fst (call st) = Raise MissingSourceError ->
          source = PNone /\
          assoc (resolve_func_name loc step_name) (templates (workflow st))
            = None /\
          snd (call st) = st) as Hraise.
  { destruct (call st) as [[r|x] st'] eqn:Hcall; [discriminate|].
    simpl. intros [= ->].
    apply run_script_Raise in Hcall as [(_ & Hs & Hreg & Hst)|[=]].
    repeat split; assumption. }
  split; [split|].
  - intros H0. split; apply (Hraise H0).
  - intros [-> Hreg]. unfold call.
    rewrite run_script_fresh_no_source by exact Hreg. reflexivity.
  - intros H0. apply (Hraise H0).
Qed.

(** *** Each call registers at most one template and appends one step *)

Lemma run_script_defines_step (loc : call_site)
    (image command source env resources secret timeout retry : pyval)
    (step_name : option string) (image_pull_policy pool daemon : pyval) :
  defines_step (resolve_func_name loc step_name)
    (run_script loc image command source env resources secret timeout retry
       step_name image_pull_policy pool daemon).
Proof.
  intros st r st'. unfold registry_after, step_appended.
  destruct (assoc (resolve_func_name loc step_name) (templates (workflow st)))
    as [t|] eqn:Hreg.
  - rewrite (run_script_registered _ _ _ _ _ _ _ _ _ _ _ _ _ _ _ Hreg).
    unfold bind.
    destruct (update_step _ _ _ _ st) as [[sn|x] st1] eqn:Hup; [|discriminate].
    intros [= <- <-]. apply update_step_Ok in Hup as [-> ->]. simpl.
    split; [reflexivity|]. eexists; split; [reflexivity|]. split; reflexivity.
  - destruct (decide (source = PNone)) as [->|Hsource].
    { rewrite run_script_fresh_no_source by exact Hreg. discriminate. }
    rewrite run_script_fresh by assumption.
    unfold bind. rewrite add_template_fresh by exact Hreg.
    match goal with |- context [update_step ?a ?b ?c ?d ?s] =>
      destruct (update_step a b c d s) as [[sn|x] st1] eqn:Hup end;
      [|discriminate].
    intros [= <- <-]. apply update_step_Ok in Hup as [-> ->]. simpl.
    split; [eexists; split; [|reflexivity]; reflexivity|].
    eexists; split; [reflexivity|]. split; reflexivity.
Qed.

(** *** run_container, branch by branch *)

Lemma run_container_registered (loc : call_site)
    (image command args output : pyval) (input : option (list pyval))
    (env secret resources timeout retry : pyval)
    (step_name : option string)
    (image_pull_policy pool enable_ulogfs daemon volume_mounts : pyval)
    (st : States) (t : Template) :
  let func_name := resolve_func_name loc step_name in
  assoc func_name (templates (workflow st)) = Some t ->
  run_container loc image command args output input env secret resources
    timeout retry step_name image_pull_policy pool enable_ulogfs daemon
    volume_mounts st
  = (let* resolved := update_step func_name args step_name (snd loc) in
     let rets := container_output resolved func_name (to_dict_outputs t) in
     let* _ := store_steps_output (Some resolved) rets in
     ret rets) st.
Proof.
  intros func_name Hreg.
  unfold run_container, bind, get_template. simpl.
  fold func_name. rewrite Hreg. simpl.
  destruct (update_step func_name args step_name (snd loc) st)
    as [[sn|x] st1] eqn:Hup; [|reflexivity].
  apply update_step_Ok in Hup as [-> ->]. simpl. rewrite Hreg. reflexivity.
Qed.

Lemma run_container_fresh (loc : call_site)
    (image command args output : pyval) (input : option (list pyval))
    (env secret resources timeout retry : pyval)
    (step_name : option string)
    (image_pull_policy pool enable_ulogfs daemon volume_mounts : pyval)
    (st : States) :
  let func_name := resolve_func_name loc step_name in
  let normal := normalize_args args input (_outputs_tmp st) in
  let template :=
    TContainer (mkContainer func_name image command (fst normal) env
                  (get_secret secret) resources image_pull_policy retry
                  timeout output (snd normal) pool enable_ulogfs daemon
                  volume_mounts) in
  assoc func_name (templates (workflow st)) = None ->
  run_container loc image command args output input env secret resources
    timeout retry step_name image_pull_policy pool enable_ulogfs daemon
    volume_mounts st
  = (let* _ := add_template template in
     let* resolved := update_step func_name (fst normal) step_name (snd loc) in
     let rets :=
       container_output resolved func_name (to_dict_outputs template) in
     let* _ := store_steps_output (Some resolved) rets in
     ret rets) st.
Proof.
  intros func_name normal template Hreg.
  unfold run_container, bind, get_template, get_outputs_tmp. simpl.
  fold func_name. rewrite Hreg. simpl. fold normal.
  destruct normal as [args' input'] eqn:Hn. simpl in template. simpl.
  unfold add_template, ret. simpl. rewrite Hreg. fold template.
  match goal with |- context [update_step ?a ?b ?c ?d ?s] =>
    destruct (update_step a b c d s) as [[sn|x] st1] eqn:Hup end;
    [|reflexivity].
  apply update_step_Ok in Hup as [-> ->]. simpl.
  rewrite (assoc_app_None _ _ _ Hreg). simpl.
  rewrite String.eqb_refl. reflexivity.
Qed.
(** *** run_job, branch by branch *)

Lemma run_job_registered (loc : call_site) (manifest : string)
    (success_condition failure_condition timeout retry : pyval)
    (step_name : option string) (pool env set_owner_reference : pyval)
    (st : States) (t : Template) :
  let func_name := resolve_func_name loc step_name in
  assoc func_name (templates (workflow st)) = Some t ->
  run_job loc (Some manifest) success_condition failure_condition timeout
    retry step_name pool env set_owner_reference st
  = (let* _ := update_step func_name (PList []) step_name (snd loc) in
     let rets := job_output step_name func_name in
     let* _ := store_steps_output step_name rets in
     ret rets) st.
Proof.
  intros func_name Hreg.
  unfold run_job, bind, get_template. simpl.
  fold func_name. rewrite Hreg. reflexivity.
Qed.

Lemma run_job_fresh (loc : call_site) (manifest : string)
    (success_condition failure_condition timeout retry : pyval)
    (step_name : option string) (pool env set_owner_reference : pyval)
    (st : States) :
  let func_name := resolve_func_name loc step_name in
  assoc func_name (templates (workflow st)) = None ->
  run_job loc (Some manifest) success_condition failure_condition timeout
    retry step_name pool env set_owner_reference st
  = (let* env := lift (infer_outputs env (_outputs_tmp st)) in
     let generated := generate_parameters_run_job env in
     let* manifest :=
       lift (update_manifest manifest env (fst (fst generated))) in
     let* _ :=
       add_template
         (TJob (mkJob func_name (snd generated) "create" manifest
                  set_owner_reference success_condition failure_condition
                  timeout retry pool)) in
     let* _ := update_step func_name (snd generated) step_name (snd loc) in
     let rets := job_output step_name func_name in
     let* _ := store_steps_output step_name rets in
     ret rets) st.
Proof.
  intros func_name Hreg.
  unfold run_job, bind, get_template, get_outputs_tmp, lift. simpl.
  fold func_name. rewrite Hreg. simpl.
  destruct (infer_outputs env (_outputs_tmp st)) as [env'|x]; [|reflexivity].
  destruct (generate_parameters_run_job env') as [[envs parameters] args].
  simpl.
  destruct (update_manifest manifest env' envs) as [m|x]; [|reflexivity].
  destruct (add_template _ st) as [[[]|x] st1]; reflexivity.
Qed.

Lemma run_container_defines_step (loc : call_site)
    (image command args output : pyval) (input : option (list pyval))
    (env secret resources timeout retry : pyval)
    (step_name : option string)
    (image_pull_policy pool enable_ulogfs daemon volume_mounts : pyval) :
  defines_step (resolve_func_name loc step_name)
    (run_container loc image command args output input env secret resources
       timeout retry step_name image_pull_policy pool enable_ulogfs daemon
       volume_mounts).
Proof.
  intros st r st'. unfold registry_after, step_appended.
  destruct (assoc (resolve_func_name loc step_name) (templates (workflow st)))
    as [t|] eqn:Hreg.
  - rewrite (run_container_registered _ _ _ _ _ _ _ _ _ _ _ _ _ _ _ _ _ _ _ Hreg).
    unfold bind.
    destruct (update_step _ _ _ _ st) as [[sn|x] st1] eqn:Hup; [|discriminate].
    intros [= <- <-]. apply update_step_Ok in Hup as [-> ->]. simpl.
    split; [reflexivity|]. eexists; split; [reflexivity|]. split; reflexivity.
  - rewrite (run_container_fresh _ _ _ _ _ _ _ _ _ _ _ _ _ _ _ _ _ _ Hreg).
    unfold bind. rewrite add_template_fresh by exact Hreg.
    match goal with |- context [update_step ?a ?b ?c ?d ?s] =>
      destruct (update_step a b c d s) as [[sn|x] st1] eqn:Hup end;
      [|discriminate].
    intros [= <- <-]. apply update_step_Ok in Hup as [-> ->]. simpl.
    split; [eexists; split; [|reflexivity]; reflexivity|].
    eexists; split; [reflexivity|]. split; reflexivity.
Qed.

Lemma run_job_defines_step (loc : call_site) (manifest : option string)
    (success_condition failure_condition timeout retry : pyval)
    (step_name : option string) (pool env set_owner_reference : pyval) :
  defines_step (resolve_func_name loc step_name)
    (run_job loc manifest success_condition failure_condition timeout retry
       step_name pool env set_owner_reference).
Proof.
  intros st r st'. unfold registry_after, step_appended.
  destruct manifest as [manifest|]; [|discriminate].
  destruct (assoc (resolve_func_name loc step_name) (templates (workflow st)))
    as [t|] eqn:Hreg.
  - rewrite (run_job_registered _ _ _ _ _ _ _ _ _ _ _ _ Hreg).
    unfold bind.
    destruct (update_step _ _ _ _ st) as [[sn|x] st1] eqn:Hup; [|discriminate].
    intros [= <- <-]. apply update_step_Ok in Hup as [-> ->]. simpl.
    split; [reflexivity|]. eexists; split; [reflexivity|]. split; reflexivity.
  - rewrite (run_job_fresh _ _ _ _ _ _ _ _ _ _ _ Hreg).
    unfold bind, lift.
    destruct (infer_outputs env (_outputs_tmp st)) as [env'|x]; [|discriminate].
    destruct (update_manifest _ _ _) as [m|x]; [|discriminate].
    rewrite add_template_fresh by exact Hreg.
    match goal with |- context [update_step ?a ?b ?c ?d ?s] =>
      destruct (update_step a b c d s) as [[sn|x] st1] eqn:Hup end;
      [|discriminate].
    intros [= <- <-]. apply update_step_Ok in Hup as [-> ->]. simpl.
    split; [eexists; split; [|reflexivity]; reflexivity|].
    eexists; split; [reflexivity|]. split; reflexivity.
Qed.
End run_templates_facts.

(** ** Step names across repeated invocations *)

Section invocation_facts.

Lemma length_append (a b : string) :
  String.length (a +:+ b) = String.length a + String.length b.
Proof. induction a as [|c a IH]; simpl; [reflexivity|]. rewrite IH. reflexivity. Qed.

Lemma append_inj_r (a x y : string) : a +:+ x = a +:+ y -> x = y.
Proof.
  induction a as [|c a IH]; simpl; [trivial|].
  intros [= Heq]. exact (IH Heq).
Qed.

Lemma decimal_inj (a b : nat) : decimal a = decimal b -> a = b.
Proof.
  unfold decimal. intros Heq.
  apply Unsigned.to_uint_inj.
  assert (Some (Nat.to_uint a) = Some (Nat.to_uint b)) as [= E]; [|exact E].
  rewrite <- !NilEmpty.usu. rewrite Heq. reflexivity.
Qed.

(** The assembler's names for the successive instances of one template
    are pairwise distinct. *)
Lemma instance_name_inj (template : string) (a b : nat) :
  instance_name template a = instance_name template b -> a = b.
Proof.
  destruct a as [|a], b as [|b]; simpl; intros Heq.
  - reflexivity.
  - apply (f_equal String.length) in Heq.
    rewrite length_append in Heq. simpl in Heq. lia.
  - apply (f_equal String.length) in Heq.
    rewrite length_append in Heq. simpl in Heq. lia.
  - apply append_inj_r in Heq. injection Heq as Heq.
    apply decimal_inj in Heq. lia.
Qed.

Lemma instances_snoc (template : string) (l : list Step) (s : Step) :
  step_template s = template ->
  instances template (l ++ [s])%list = S (instances template l).
Proof.
  intros Ht. unfold instances.
  rewrite List.filter_app, List.length_app. simpl.
  rewrite Ht, String.eqb_refl. simpl. lia.
Qed.

Lemma registry_after_registered (name : string) (st st' : States) :
  registry_after name st st' ->
  is_Some (assoc name (templates (workflow st'))).
Proof.
  unfold registry_after.
  destruct (assoc name (templates (workflow st))) as [t|] eqn:Hreg.
  - intros ->. rewrite Hreg. eauto.
  - intros (t & _ & ->). rewrite (assoc_app_None _ _ _ Hreg). simpl.
    rewrite String.eqb_refl. eauto.
Qed.

(** [n] invocations of a step-defining call: the steps they append, by
    name, and what happened to the registry. *)
Lemma invoke_times_defines_steps {A} (name : string) (call : M A) :
  defines_step name call ->
  forall (n : nat) (st st' : States) (rs : list A),
    invoke_times n call st = (Ok rs, st') ->
    exists new_steps,
      steps (workflow st') = (steps (workflow st) ++ new_steps)%list /\
      map step_name new_steps =
        map (fun i => instance_name name
                        (instances name (steps (workflow st)) + i))
            (seq 0 n) /\
      Forall (fun s => step_template s = name) new_steps /\
      length rs = n /\
      match n with
      | O => templates (workflow st') = templates (workflow st)
      | S _ => registry_after name st st'
      end.
Proof.
  intros Hcall n. induction n as [|n IH]; intros st st' rs Hrun.
  - injection Hrun as <- <-. exists []. rewrite List.app_nil_r.
    repeat split; constructor.
  - simpl in Hrun. unfold bind in Hrun.
    destruct (call st) as [[r|x] st1] eqn:Hfirst; [|discriminate].
    destruct (invoke_times n call st1) as [[rs'|x] st2] eqn:Hrest;
      [|discriminate].
    injection Hrun as <- <-.
    destruct (Hcall _ _ _ Hfirst) as [Hreg (step & Hsteps & Htpl & Hname)].
    destruct (IH _ _ _ Hrest) as (l & Hl & Hnames & Hall & Hlen & Hreg').
    exists (step :: l). repeat split.
    + rewrite Hl, Hsteps, <- List.app_assoc. reflexivity.
    + simpl. rewrite Hname, Nat.add_0_r. f_equal.
      rewrite Hnames, Hsteps, (instances_snoc _ _ _ Htpl).
      rewrite <- List.seq_shift, List.map_map.
      apply List.map_ext. intros i. f_equal. lia.
    + constructor; assumption.
    + simpl. f_equal. exact Hlen.
    + assert (templates (workflow st2) = templates (workflow st1)) as Hsame.
      { destruct n; [exact Hreg'|].
        unfold registry_after in Hreg'.
        destruct (registry_after_registered _ _ _ Hreg) as [t Ht].
        rewrite Ht in Hreg'. exact Hreg'. }
      unfold registry_after in *. rewrite Hsame. exact Hreg.
Qed.

Lemma invoke_times_one_template_n_steps {A} (name : string) (call : M A)
    (n : nat) (st st' : States) (rs : list A) :
  defines_step name call ->
  assoc name (templates (workflow st)) = None ->
  0 < n ->
  invoke_times n call st = (Ok rs, st') ->
  one_template_n_steps name n st st'.
Proof.
  intros Hcall Hfresh Hn Hrun.
  destruct (invoke_times_defines_steps name call Hcall n st st' rs Hrun)
    as (l & Hl & Hnames & Hall & _ & Hreg).
  destruct n as [|n]; [lia|].
  unfold registry_after in Hreg. rewrite Hfresh in Hreg.
  destruct Hreg as (t & Ht & Htemplates).
  exists t, l. repeat split; try assumption.
  - rewrite <- (List.length_map step_name), Hnames, List.length_map.
    apply List.length_seq.
  - rewrite Hnames.
    apply (NoDup_fmap_2_strong
             (fun i => instance_name name
                         (instances name (steps (workflow st)) + i)));
      [|apply NoDup_seq].
    intros i j _ _ Hij. apply instance_name_inj in Hij. lia.
Qed.

Lemma invoke_times_registered_by_first {A} (name : string) (call : M A)
    (n : nat) (st st' : States) (rs : list A) :
  defines_step name call ->
  assoc name (templates (workflow st)) = None ->
  0 < n ->
  invoke_times n call st = (Ok rs, st') ->
  registered_by_first name n call st st'.
Proof.
  intros Hcall Hfresh Hn Hrun.
  destruct n as [|n]; [lia|].
  simpl in Hrun. unfold bind in Hrun.
  destruct (call st) as [[r|x] st1] eqn:Hfirst; [|discriminate].
  destruct (invoke_times n call st1) as [[rs'|x] st2] eqn:Hrest;
    [|discriminate].
  injection Hrun as <- <-.
  destruct (Hcall _ _ _ Hfirst) as [Hreg _].
  pose proof (registry_after_registered _ _ _ Hreg) as [t1 Ht1].
  unfold registry_after in Hreg. rewrite Hfresh in Hreg.
  destruct Hreg as (t & _ & Htemplates).
  exists t, r, st1, rs'. repeat split; try assumption.
  destruct (invoke_times_defines_steps name call Hcall n st1 st2 rs' Hrest)
    as (_ & _ & _ & _ & _ & Hlater).
  destruct n; [exact Hlater|].
  unfold registry_after in Hlater. rewrite Ht1 in Hlater. exact Hlater.
Qed.

End invocation_facts.

(** ** Claims on run_script, run_container and run_job *)

Section step_defining_calls.
Context `{Collaborators}.

(** C1. [n] invocations of the same step-defining call ([run_script],
    [run_container] or [run_job]) from one call site with the same
    [step_name], started where the resolved name is not registered yet:
    exactly one template is registered (by the first invocation; the later
    ones find it and leave the registry alone), exactly [n] steps are
    appended, and the [n] resolved step names are pairwise distinct. *)
Theorem repeated_invocations_register_once (n : nat) (loc : call_site)
    (step_name : option string) (st : States) :
  let name := resolve_func_name loc step_name in
  assoc name (templates (workflow st)) = None ->
  0 < n ->
  (forall image command source env resources secret timeout retry
          image_pull_policy pool daemon rs st',
      let call :=
        run_script loc image command source env resources secret timeout
          retry step_name image_pull_policy pool daemon in
      invoke_times n call st = (Ok rs, st') ->
      one_template_n_steps name n st st' /\
      registered_by_first name n call st st') /\
  (forall image command args output input env secret resources timeout retry
          image_pull_policy pool enable_ulogfs daemon volume_mounts rs st',
      let call :=
        run_container loc image command args output input env secret
          resources timeout retry step_name image_pull_policy pool
          enable_ulogfs daemon volume_mounts in
      invoke_times n call st = (Ok rs, st') ->
      one_template_n_steps name n st st' /\
      registered_by_first name n call st st') /\
  (forall manifest success_condition failure_condition timeout retry pool env
          set_owner_reference rs st',
      let call :=
        run_job loc manifest success_condition failure_condition timeout
          retry step_name pool env set_owner_reference in
      invoke_times n call st = (Ok rs, st') ->
      one_template_n_steps name n st st' /\
      registered_by_first name n call st st').
Proof.
  intros name Hfresh Hn.
  assert (forall A (call : M A) rs st',
             defines_step name call ->
             invoke_times n call st = (Ok rs, st') ->
             one_template_n_steps name n st st' /\
             registered_by_first name n call st st') as Hgeneric.
  { intros A call rs st' Hcall Hrun. split.
    - exact (invoke_times_one_template_n_steps name call n st st' rs
               Hcall Hfresh Hn Hrun).
    - exact (invoke_times_registered_by_first name call n st st' rs
               Hcall Hfresh Hn Hrun). }
  repeat split; intros; eapply Hgeneric; eauto.
  - apply run_script_defines_step.
  - apply run_script_defines_step.
  - apply run_container_defines_step.
  - apply run_container_defines_step.
  - apply run_job_defines_step.
  - apply run_job_defines_step.
Qed.

(** [run_script] returns whenever it has a source (or a registered
    template) and nothing is staged, and leaves nothing staged. *)
Lemma run_script_returns (loc : call_site)
    (image command source env resources secret timeout retry : pyval)
    (step_name : option string) (image_pull_policy pool daemon : pyval)
    (st : States) :
  source <> PNone ->
  _outputs_tmp st = None ->
  exists r st',
    run_script loc image command source env resources secret timeout retry
      step_name image_pull_policy pool daemon st = (Ok r, st') /\
    _outputs_tmp st' = None.
Proof.
  intros Hsrc Htmp.
  unfold run_script, bind, get_template. simpl.
  destruct (assoc _ _) as [t|] eqn:Hreg; simpl.
  - unfold update_step. rewrite Htmp. simpl. eauto.
  - destruct source; try congruence.
    all: unfold add_template; simpl; rewrite Hreg; simpl.
    all: unfold update_step; simpl; rewrite Htmp; simpl; eauto.
Qed.

Lemma invoke_times_run_script_returns (n : nat) (loc : call_site)
    (image command source env resources secret timeout retry : pyval)
    (step_name : option string) (image_pull_policy pool daemon : pyval)
    (st : States) :
  source <> PNone ->
  _outputs_tmp st = None ->
  exists rs st',
    invoke_times n
      (run_script loc image command source env resources secret timeout
         retry step_name image_pull_policy pool daemon) st = (Ok rs, st').
Proof.
  intros Hsrc. revert st.
  induction n as [|n IH]; intros st Htmp; simpl; [unfold ret; eauto|].
  unfold bind.
  destruct (run_script_returns loc image command source env resources secret
              timeout retry step_name image_pull_policy pool daemon st
              Hsrc Htmp) as (r & st1 & -> & Htmp1).
  destruct (IH st1 Htmp1) as (rs & st2 & ->). unfold ret. eauto.
Qed.

End step_defining_calls.


Lemma repeated_invocations_register_once_witness :
  one_template_n_steps "s1" 3 demo.initial
    (snd (invoke_times 3
            (@run_script demo.collaborators demo.here (PStr "python:3.6")
               PNone (PStr "print(1)") PNone PNone PNone PNone PNone
               (Some "s1") PNone PNone (PBool false)) demo.initial)).
Proof.
  set (result := invoke_times 3 _ demo.initial).
  assert (result =
          (Ok (match fst result with Ok rs => rs | Raise _ => [] end),
           snd result)) as Hrun by (vm_compute; reflexivity).
  exact (proj1
           (proj1 (@repeated_invocations_register_once demo.collaborators 3
                     demo.here (Some "s1") demo.initial eq_refl
                     (Nat.lt_0_succ 2))
              _ _ _ _ _ _ _ _ _ _ _ _ _ Hrun)).
Defined.

(** ** run_container: normalisation, mirroring, implicit arguments *)

Section run_container_facts.
Context `{Collaborators}.

(** The normalised [args] is [None] only when nothing was passed and
    nothing is staged; otherwise it is a list and [input] has gained the
    artifact and job proxies of that list. *)
Lemma normalize_args_shape (args : pyval) (input : option (list pyval))
    (tmp : option (list pyval)) :
  let input0 := match input with None => [] | Some l => l end in
  (args = PNone /\ tmp = None /\
   normalize_args args input tmp = (PNone, input0)) \/
  (exists l,
      normalize_args args input tmp =
      (PList l,
       (input0 ++ List.filter isinstance_OutputArtifact_OutputJob l)%list)).
Proof.
  intros input0. unfold normalize_args. fold input0.
  destruct args, tmp; cbv beta iota zeta;
    first [left; repeat split; reflexivity | right; eexists; reflexivity].
Qed.

(** The assembler never takes the implicit-arguments path after a fresh
    [run_container] normalisation: it is handed explicit arguments
    whenever something is staged. *)
Lemma implicit_args_normalized (args : pyval) (input : option (list pyval))
    (tmp : option (list pyval)) :
  implicit_args (fst (normalize_args args input tmp)) tmp =
  (fst (normalize_args args input tmp), tmp).
Proof.
  destruct (normalize_args_shape args input tmp)
    as [(_ & -> & ->)|[l ->]]; reflexivity.
Qed.

Lemma scan_args_top_level (v : pyval) (o : Output) :
  In (POutput o) (promote_scalar v) -> v <> PNone /\ In o (scan_args v).
Proof.
  destruct v; simpl; try (intros [[=]|[]]).
  - subst. split; [discriminate|left; reflexivity].
  - intros Hin. split; [discriminate|].
    apply List.in_flat_map. exists (POutput o). split; [exact Hin|].
    left. reflexivity.
Qed.

Lemma implicit_args_explicit (v : pyval) (tmp : option (list pyval)) :
  v <> PNone -> implicit_args v tmp = (v, tmp).
Proof. destruct v; try reflexivity. congruence. Qed.

(** What a returning [run_container] leaves, when the name was fresh. *)
Lemma run_container_fresh_Ok (loc : call_site)
    (image command args output : pyval) (input : option (list pyval))
    (env secret resources timeout retry : pyval)
    (step_name : option string)
    (image_pull_policy pool enable_ulogfs daemon volume_mounts : pyval)
    (st st' : States) (r : pyval) :
  let func_name := resolve_func_name loc step_name in
  let normal := normalize_args args input (_outputs_tmp st) in
  let template :=
    TContainer (mkContainer func_name image command (fst normal) env
                  (get_secret secret) resources image_pull_policy retry
                  timeout output (snd normal) pool enable_ulogfs daemon
                  volume_mounts) in
  let resolved :=
    instance_name func_name (instances func_name (steps (workflow st))) in
  assoc func_name (templates (workflow st)) = None ->
  run_container loc image command args output input env secret resources
    timeout retry step_name image_pull_policy pool enable_ulogfs daemon
    volume_mounts st = (Ok r, st') ->
  r = container_output resolved func_name (to_dict_outputs template) /\
  st' = mkStates
          (mkWorkflow
             (templates (workflow st) ++ [(func_name, template)])%list
             (steps (workflow st) ++
              [mkStep resolved func_name (fst normal)
                 (map out_step (scan_args (fst normal)))
                 (List.filter is_artifact_or_job (scan_args (fst normal)))])%list)
          (_outputs_tmp st)
          (<[Some resolved := r]> (_steps_outputs st)).
Proof.
  intros func_name normal template resolved Hreg.
  rewrite (run_container_fresh _ _ _ _ _ _ _ _ _ _ _ _ _ _ _ _ _ _ Hreg).
  fold func_name normal template. unfold bind.
  rewrite add_template_fresh by exact Hreg.
  match goal with |- context [update_step ?a ?b ?c ?d ?s] =>
    destruct (update_step a b c d s) as [[sn|x] st1] eqn:Hup end;
    [|discriminate].
  apply update_step_Ok in Hup as [-> ->]. simpl.
  unfold normal. rewrite implicit_args_normalized. simpl.
  intros [= <- <-]. split; reflexivity.
Qed.

(** What a returning [run_container] leaves, when the name was registered. *)
Lemma run_container_registered_Ok (loc : call_site)
    (image command args output : pyval) (input : option (list pyval))
    (env secret resources timeout retry : pyval)
    (step_name : option string)
    (image_pull_policy pool enable_ulogfs daemon volume_mounts : pyval)
    (st st' : States) (r : pyval) (t : Template) :
  let func_name := resolve_func_name loc step_name in
  let resolved :=
    instance_name func_name (instances func_name (steps (workflow st))) in
  let passed := implicit_args args (_outputs_tmp st) in
  assoc func_name (templates (workflow st)) = Some t ->
  run_container loc image command args output input env secret resources
    timeout retry step_name image_pull_policy pool enable_ulogfs daemon
    volume_mounts st = (Ok r, st') ->
  r = container_output resolved func_name (to_dict_outputs t) /\
  st' = mkStates
          (mkWorkflow
             (templates (workflow st))
             (steps (workflow st) ++
              [mkStep resolved func_name (fst passed)
                 (map out_step (scan_args (fst passed)))
                 (List.filter is_artifact_or_job (scan_args (fst passed)))])%list)
          (snd passed)
          (<[Some resolved := r]> (_steps_outputs st)).
Proof.
  intros func_name resolved passed Hreg.
  rewrite (run_container_registered _ _ _ _ _ _ _ _ _ _ _ _ _ _ _ _ _ _ _ Hreg).
  fold func_name. unfold bind.
  destruct (update_step _ _ _ _ st) as [[sn|x] st1] eqn:Hup; [|discriminate].
  apply update_step_Ok in Hup as [-> ->]. simpl.
  intros [= <- <-]. split; reflexivity.
Qed.

(** C9. [run_container] normalises its arguments (scalar promotion,
    one-level flattening, extension by the staged outputs, mirroring of
    artifacts into [input]) only on the invocation that registers the
    template; under an already registered name it registers nothing and
    hands the caller's [args] to the step assembler as they are. *)
Theorem run_container_normalizes_only_when_fresh (loc : call_site)
    (image command args output : pyval) (input : option (list pyval))
    (env secret resources timeout retry : pyval)
    (step_name : option string)
    (image_pull_policy pool enable_ulogfs daemon volume_mounts : pyval)
    (st : States) :
  let func_name := resolve_func_name loc step_name in
  let call :=
    run_container loc image command args output input env secret resources
      timeout retry step_name image_pull_policy pool enable_ulogfs daemon
      volume_mounts in
  (forall t, assoc func_name (templates (workflow st)) = Some t ->
     call st =
     (let* resolved := update_step func_name args step_name (snd loc) in
      let rets := container_output resolved func_name (to_dict_outputs t) in
      let* _ := store_steps_output (Some resolved) rets in
      ret rets) st) /\
  (assoc func_name (templates (workflow st)) = None ->
     let normal := normalize_args args input (_outputs_tmp st) in
     let template :=
       TContainer (mkContainer func_name image command (fst normal) env
                     (get_secret secret) resources image_pull_policy retry
                     timeout output (snd normal) pool enable_ulogfs daemon
                     volume_mounts) in
     call st =
     (let* _ := add_template template in
      let* resolved :=
        update_step func_name (fst normal) step_name (snd loc) in
      let rets :=
        container_output resolved func_name (to_dict_outputs template) in
      let* _ := store_steps_output (Some resolved) rets in
      ret rets) st).
Proof.
  intros func_name call. split.
  - intros t Hreg. apply run_container_registered. exact Hreg.
  - intros Hreg. apply run_container_fresh. exact Hreg.
Qed.


(** C3. After a returning [run_container], every artifact or job proxy
    among the arguments handed to the assembler (the normalised list on a
    fresh name, the caller's [args] otherwise) is in the new step's
    inputs, and on a fresh name also in the [input] of the constructed
    template, whether or not the caller listed it in [input]. *)
Theorem run_container_mirrors_artifacts (loc : call_site)
    (image command args output : pyval) (input : option (list pyval))
    (env secret resources timeout retry : pyval)
    (step_name : option string)
    (image_pull_policy pool enable_ulogfs daemon volume_mounts : pyval)
    (st st' : States) (r : pyval) :
  let func_name := resolve_func_name loc step_name in
  let handed :=
    match assoc func_name (templates (workflow st)) with
    | None => fst (normalize_args args input (_outputs_tmp st))
    | Some _ => args
    end in
  run_container loc image command args output input env secret resources
    timeout retry step_name image_pull_policy pool enable_ulogfs daemon
    volume_mounts st = (Ok r, st') ->
  exists step,
    steps (workflow st') = (steps (workflow st) ++ [step])%list /\
    forall o,
      is_artifact_or_job o = true ->
      In (POutput o) (promote_scalar handed) ->
      In o (step_inputs step) /\
      (assoc func_name (templates (workflow st)) = None ->
       exists c,
         assoc func_name (templates (workflow st')) = Some (TContainer c) /\
         c_args c = handed /\
         In (POutput o) (c_input c)).
Proof.
  intros func_name handed Hrun.
  destruct (assoc func_name (templates (workflow st))) as [t|] eqn:Hreg.
  - apply (run_container_registered_Ok _ _ _ _ _ _ _ _ _ _ _ _ _ _ _ _ _ _ _ _ _
             Hreg) in Hrun as [_ ->]. simpl.
    eexists. split; [reflexivity|]. simpl.
    intros o Hkind Hin. split; [|discriminate].
    apply scan_args_top_level in Hin as [Hsome Hin].
    rewrite (implicit_args_explicit _ _ Hsome). simpl.
    apply List.filter_In. split; assumption.
  - apply (run_container_fresh_Ok _ _ _ _ _ _ _ _ _ _ _ _ _ _ _ _ _ _ _ _
             Hreg) in Hrun as [_ ->]. simpl.
    eexists. split; [reflexivity|]. simpl.
    intros o Hkind Hin. split.
    + apply scan_args_top_level in Hin as [_ Hin].
      apply List.filter_In. split; assumption.
    + intros _. eexists. split.
      { rewrite (assoc_app_None _ _ _ Hreg). simpl.
        fold func_name. rewrite String.eqb_refl. reflexivity. }
      split; [reflexivity|].
      simpl. unfold handed in Hin.
      destruct (normalize_args_shape args input (_outputs_tmp st))
        as [(_ & _ & E)|[l E]]; rewrite E in Hin |- *; simpl in *.
      * destruct Hin as [[=]|[]].
      * apply List.in_or_app. right. apply List.filter_In.
        split; [exact Hin|exact Hkind].
Qed.

(** C5 (as the code has it).  On a call that constructs the template,
    with [args] not supplied and the staging area set, the staged proxies
    are the argument list of the new template and of the new step; the
    staging area is left as it was, not cleared: [run_container] never
    assigns it, and the assembler, handed explicit arguments, does not
    take its implicit-chaining path. *)
Theorem run_container_implicit_args (loc : call_site)
    (image command output : pyval) (input : option (list pyval))
    (env secret resources timeout retry : pyval)
    (step_name : option string)
    (image_pull_policy pool enable_ulogfs daemon volume_mounts : pyval)
    (staged : list pyval) (st st' : States) (r : pyval) :
  let func_name := resolve_func_name loc step_name in
  assoc func_name (templates (workflow st)) = None ->
  _outputs_tmp st = Some staged ->
  run_container loc image command PNone output input env secret resources
    timeout retry step_name image_pull_policy pool enable_ulogfs daemon
    volume_mounts st = (Ok r, st') ->
  (exists c step,
      templates (workflow st') =
        (templates (workflow st) ++ [(func_name, TContainer c)])%list /\
      c_args c = PList staged /\
      steps (workflow st') = (steps (workflow st) ++ [step])%list /\
      step_args step = PList staged) /\
  _outputs_tmp st' = Some staged.
Proof.
  intros func_name Hreg Htmp Hrun.
  apply (run_container_fresh_Ok _ _ _ _ _ _ _ _ _ _ _ _ _ _ _ _ _ _ _ _
           Hreg) in Hrun as [_ ->].
  rewrite Htmp. simpl. split; [|reflexivity].
  eexists. eexists. repeat split.
Qed.

End run_container_facts.

(** ** The claims on run_container at concrete calls *)

Section run_container_examples.
Import demo.

Lemma run_container_normalizes_only_when_fresh_witness :
  container (PStr "echo") None (Some "s1") underway =
  (let* resolved := update_step "s1" (PStr "echo") (Some "s1") 12 in
   let rets := PNone in
   let* _ := store_steps_output (Some resolved) rets in
   ret rets) underway.
Proof.
  exact (proj1 (@run_container_normalizes_only_when_fresh collaborators here
                  (PStr "alpine") PNone (PStr "echo") PNone None PNone PNone
                  PNone PNone PNone (Some "s1") PNone PNone (PBool true)
                  (PBool false) PNone underway) _ eq_refl).
Defined.


Lemma run_container_mirrors_artifacts_witness :
  exists step,
    steps (workflow (snd (container (PList [POutput artifact]) None None
                            underway)))
    = (steps (workflow underway) ++ [step])%list /\
    In artifact (step_inputs step).
Proof.
  set (result := container (PList [POutput artifact]) None None underway).
  assert (result =
          (Ok (match fst result with Ok r => r | Raise _ => PNone end),
           snd result)) as Hrun by (vm_compute; reflexivity).
  destruct (@run_container_mirrors_artifacts collaborators here
              (PStr "alpine") PNone (PList [POutput artifact]) PNone None
              PNone PNone PNone PNone PNone None PNone PNone (PBool true)
              (PBool false) PNone underway _ _ Hrun)
    as (step & Hsteps & Hinputs).
  exists step. split; [exact Hsteps|].
  apply (Hinputs artifact eq_refl). left. reflexivity.
Defined.

Lemma run_container_implicit_args_witness :
  _outputs_tmp
    (snd (container PNone None None (with_outputs_tmp [POutput proxy_a])))
  = Some [POutput proxy_a].
Proof.
  set (st := with_outputs_tmp [POutput proxy_a]).
  set (result := container PNone None None st).
  assert (result =
          (Ok (match fst result with Ok r => r | Raise _ => PNone end),
           snd result)) as Hrun by (vm_compute; reflexivity).
  exact (proj2 (@run_container_implicit_args collaborators here
                  (PStr "alpine") PNone PNone None PNone PNone PNone PNone
                  PNone None PNone PNone (PBool true) (PBool false) PNone
                  [POutput proxy_a] st _ _ eq_refl eq_refl Hrun)).
Defined.

(** C5 as stated fails: [args] not supplied, one proxy staged, the name
    fresh; the call returns, the staged proxy is the argument list of the
    new template and step, and the staging area still holds it. *)
Lemma run_container_leaves_staging_area :
  let st := with_outputs_tmp [POutput proxy_a] in
  let result := container PNone None None st in
  assoc "train" (templates (workflow st)) = None /\
  _outputs_tmp st = Some [POutput proxy_a] /\
  fst result = Ok PNone /\
  map step_args (steps (workflow (snd result))) = [PList [POutput proxy_a]] /\
  ~ staging_cleared (snd result).
Proof.
  cbv zeta. repeat split; try (vm_compute; reflexivity).
  intros [E|E]; vm_compute in E; discriminate E.
Qed.

End run_container_examples.

(** ** Paths into a parsed manifest *)

Section path_facts.

Lemma set_path_deeper (k k2 : string) (p : list string) (x : pyval)
    (d : list (string * pyval)) :
  set_path (k :: k2 :: p) x (PDict d) =
  match assoc k d with
  | Some child =>
      match set_path (k2 :: p) x child with
      | Some child' => Some (PDict (assoc_set k child' d))
      | None => None
      end
  | None => None
  end.
Proof. reflexivity. Qed.

Lemma py_path_set_path_same (p : list string) (x v v' : pyval) :
  set_path p x v = Some v' -> py_path p v' = Some x.
Proof.
  revert v v'. induction p as [|k p IH]; intros v v'; [discriminate|].
  destruct v as [| | | | | |d]; try (destruct p; discriminate).
  destruct p as [|k2 p].
  - cbn [set_path]. intros [= <-]. simpl. rewrite assoc_set_same.
    reflexivity.
  - rewrite set_path_deeper.
    destruct (assoc k d) as [child|]; [|discriminate].
    destruct (set_path (k2 :: p) x child) as [child'|] eqn:Hchild;
      [|discriminate].
    intros [= <-]. cbn [py_path]. rewrite assoc_set_same.
    apply (IH _ _ Hchild).
Qed.

Lemma related_cons (k : string) (p q : list string) :
  related p q -> related (k :: p) (k :: q).
Proof. intros [Hp|Hq]; [left|right]; apply prefix_cons; assumption. Qed.

Lemma py_path_set_path_unrelated (p q : list string) (x v v' : pyval) :
  set_path p x v = Some v' -> ~ related q p -> py_path q v' = py_path q v.
Proof.
  revert q v v'. induction p as [|k p IH]; intros q v v'; [discriminate|].
  intros Hset Hun.
  destruct q as [|k2 q]; [exfalso; apply Hun; left; apply prefix_nil|].
  destruct v as [| | | | | |d]; try (destruct p; discriminate).
  destruct (String.eqb k2 k) eqn:Hk.
  - apply String.eqb_eq in Hk. subst k2.
    destruct p as [|k3 p].
    + exfalso. apply Hun. right. apply prefix_cons, prefix_nil.
    + rewrite set_path_deeper in Hset.
      destruct (assoc k d) as [child|] eqn:Hchild; [|discriminate].
      destruct (set_path (k3 :: p) x child) as [child'|] eqn:Hset';
        [|discriminate].
      injection Hset as <-. cbn [py_path].
      rewrite assoc_set_same, Hchild.
      apply (IH _ _ _ Hset'). intros Hrel. apply Hun, related_cons, Hrel.
  - apply String.eqb_neq in Hk.
    assert (exists c, v' = PDict (assoc_set k c d)) as [c ->].
    { destruct p as [|k3 p].
      - cbn [set_path] in Hset. injection Hset as <-. eauto.
      - rewrite set_path_deeper in Hset.
        destruct (assoc k d) as [child|]; [|discriminate].
        destruct (set_path (k3 :: p) x child) as [child'|]; [|discriminate].
        injection Hset as <-. eauto. }
    cbn [py_path]. rewrite assoc_set_other by exact Hk. reflexivity.
Qed.

Lemma env_path_unrelated_owner_label_path :
  ~ related env_path owner_label_path.
Proof. intros [[k E]|[k E]]; discriminate E. Qed.

Lemma owner_label_path_unrelated_env_path :
  ~ related owner_label_path env_path.
Proof. intros [[k E]|[k E]]; discriminate E. Qed.

End path_facts.

(** ** run_job: what the manifest patch changes *)

Section patch_manifest_facts.

(** A returning [patch_manifest] is the assignment at [spec.env],
    followed by the assignment at the owner label when the parsed manifest
    has that label, and by nothing else. *)
Lemma patch_manifest_Ok (d envs d' : pyval) :
  patch_manifest d envs = Ok d' ->
  exists d1,
    set_path env_path envs d = Some d1 /\
    match py_path owner_label_path d with
    | Some _ => set_path owner_label_path pod_name_reference d1 = Some d'
    | None => d' = d1
    end.
Proof.
  unfold patch_manifest.
  destruct d as [| | | | | |m]; try discriminate.
  cbn [py_getitem obind].
  destruct (assoc "spec" m) as [spec|] eqn:Hspec; [|discriminate].
  destruct spec as [| | | | | |sp]; try discriminate.
  cbn [py_setitem obind py_getitem].
  rewrite (assoc_set_other "spec" "metadata") by discriminate.
  set (m1 := assoc_set "spec" (PDict (assoc_set "env" envs sp)) m).
  assert (set_path env_path envs (PDict m) = Some (PDict m1)) as Hd1.
  { unfold env_path. rewrite set_path_deeper, Hspec. reflexivity. }
  assert (assoc "metadata" m1 = assoc "metadata" m) as Hm1
    by (apply assoc_set_other; discriminate).
  unfold owner_label_path. cbn [py_path].
  destruct (assoc "metadata" m) as [md|] eqn:Hmd; [|discriminate].
  intros Hrun. exists (PDict m1). split; [exact Hd1|].
  rewrite set_path_deeper, Hm1.
  destruct md as [| | |s|o|l|mdl]; try discriminate Hrun;
    cbn [py_contains obind] in Hrun.
  - destruct (str_contains "labels" s); [discriminate Hrun|].
    injection Hrun as <-. reflexivity.
  - destruct (bool_decide (PStr "labels" ∈ l)); [discriminate Hrun|].
    injection Hrun as <-. reflexivity.
  - rewrite set_path_deeper.
    destruct (assoc "labels" mdl) as [lb|] eqn:Hlb.
    + rewrite bool_decide_eq_true_2 in Hrun by eauto.
      cbn [py_getitem obind] in Hrun. rewrite Hlb in Hrun.
      cbn [obind] in Hrun.
      destruct lb as [| | |s|o|l|lbl]; try discriminate Hrun;
        cbn [py_contains obind] in Hrun.
      * destruct (str_contains owner_label s); [discriminate Hrun|].
        injection Hrun as <-. reflexivity.
      * destruct (bool_decide (PStr owner_label ∈ l)); [discriminate Hrun|].
        injection Hrun as <-. reflexivity.
      * destruct (assoc owner_label lbl) as [old|] eqn:Hown.
        -- rewrite bool_decide_eq_true_2 in Hrun by eauto.
           cbn [py_setitem obind] in Hrun. injection Hrun as <-.
           reflexivity.
        -- rewrite bool_decide_eq_false_2 in Hrun
             by (intros [? [=]]).
           injection Hrun as <-. reflexivity.
    + rewrite bool_decide_eq_false_2 in Hrun by (intros [? [=]]).
      injection Hrun as <-. reflexivity.
Qed.

(** The patch, read field by field. *)
Lemma patch_manifest_fields (d envs d' : pyval) :
  patch_manifest d envs = Ok d' ->
  py_path env_path d' = Some envs /\
  py_path owner_label_path d' =
    match py_path owner_label_path d with
    | Some _ => Some pod_name_reference
    | None => None
    end /\
  forall p,
    ~ related p env_path -> ~ related p owner_label_path ->
    py_path p d' = py_path p d.
Proof.
  intros (d1 & Henv & Hlabel)%patch_manifest_Ok.
  pose proof (py_path_set_path_same _ _ _ _ Henv) as Henv1.
  pose proof (py_path_set_path_unrelated _ owner_label_path _ _ _ Henv
                owner_label_path_unrelated_env_path) as Hlabel1.
  destruct (py_path owner_label_path d) as [old|].
  - repeat split.
    + rewrite (py_path_set_path_unrelated _ env_path _ _ _ Hlabel
                 env_path_unrelated_owner_label_path).
      exact Henv1.
    + apply (py_path_set_path_same _ _ _ _ Hlabel).
    + intros p Hp1 Hp2.
      rewrite (py_path_set_path_unrelated _ p _ _ _ Hlabel Hp2).
      apply (py_path_set_path_unrelated _ p _ _ _ Henv Hp1).
  - subst d'. repeat split.
    + exact Henv1.
    + exact Hlabel1.
    + intros p Hp1 _.
      apply (py_path_set_path_unrelated _ p _ _ _ Henv Hp1).
Qed.

End patch_manifest_facts.

Section run_job_facts.
Context `{Collaborators}.

Lemma infer_outputs_None (tmp : option (list pyval)) :
  infer_outputs PNone tmp = Ok PNone.
Proof. destruct tmp; reflexivity. Qed.

Lemma infer_outputs_not_None (env env' : pyval) (tmp : option (list pyval)) :
  env <> PNone -> infer_outputs env tmp = Ok env' -> env' <> PNone.
Proof.
  intros Henv. unfold infer_outputs.
  destruct tmp as [staged|]; [|intros [= <-]; exact Henv].
  destruct env; try congruence; try discriminate.
  intros [= <-]. discriminate.
Qed.

(** What a returning [run_job] leaves, when the name was fresh. *)
Lemma run_job_fresh_Ok (loc : call_site) (manifest : string)
    (success_condition failure_condition timeout retry : pyval)
    (step_name : option string) (pool env set_owner_reference : pyval)
    (st st' : States) (r : pyval) :
  let func_name := resolve_func_name loc step_name in
  assoc func_name (templates (workflow st)) = None ->
  run_job loc (Some manifest) success_condition failure_condition timeout
    retry step_name pool env set_owner_reference st = (Ok r, st') ->
  exists env' manifest',
    infer_outputs env (_outputs_tmp st) = Ok env' /\
    update_manifest manifest env'
      (fst (fst (generate_parameters_run_job env'))) = Ok manifest' /\
    templates (workflow st') =
      (templates (workflow st) ++
       [(func_name,
         TJob (mkJob func_name (snd (generate_parameters_run_job env'))
                 "create" manifest' set_owner_reference success_condition
                 failure_condition timeout retry pool))])%list.
Proof.
  intros func_name Hreg.
  rewrite (run_job_fresh _ _ _ _ _ _ _ _ _ _ _ Hreg).
  fold func_name. unfold bind, lift.
  destruct (infer_outputs env (_outputs_tmp st)) as [env'|x]; [|discriminate].
  destruct (update_manifest _ _ _) as [manifest'|x] eqn:Hm; [|discriminate].
  rewrite add_template_fresh by exact Hreg.
  match goal with |- context [update_step ?a ?b ?c ?d ?s] =>
    destruct (update_step a b c d s) as [[sn|x] st1] eqn:Hup end;
    [|discriminate].
  apply update_step_Ok in Hup as [_ ->]. simpl.
  intros [= _ <-]. exists env', manifest'. repeat split. exact Hm.
Qed.

(** C7 (as the code has it).  On a [run_job] call that registers its
    template: without an environment mapping the manifest text reaches the
    template unchanged; with one, the manifest is parsed, [spec.env] is
    set to the generated entries (whatever [spec.env] held before is
    replaced, not merged), the [argo.step.owner] label, when
    [metadata.labels] has it, is set to ['{{pod.name}}'], every other
    field of the parsed manifest is as it was, and the template receives
    the dump of that dict. *)
Theorem run_job_patches_manifest (loc : call_site) (manifest : string)
    (success_condition failure_condition timeout retry : pyval)
    (step_name : option string) (pool env set_owner_reference : pyval)
    (st st' : States) (r : pyval) :
  let func_name := resolve_func_name loc step_name in
  assoc func_name (templates (workflow st)) = None ->
  run_job loc (Some manifest) success_condition failure_condition timeout
    retry step_name pool env set_owner_reference st = (Ok r, st') ->
  exists job,
    templates (workflow st') =
      (templates (workflow st) ++ [(func_name, TJob job)])%list /\
    (env = PNone -> j_manifest job = manifest) /\
    (env <> PNone ->
     exists env' d d',
       infer_outputs env (_outputs_tmp st) = Ok env' /\
       safe_load manifest = Ok d /\
       j_manifest job = dump d' /\
       py_path env_path d' =
         Some (fst (fst (generate_parameters_run_job env'))) /\
       py_path owner_label_path d' =
         match py_path owner_label_path d with
         | Some _ => Some pod_name_reference
         | None => None
         end /\
       forall p,
         ~ related p env_path -> ~ related p owner_label_path ->
         py_path p d' = py_path p d).
Proof.
  intros func_name Hreg Hrun.
  destruct (run_job_fresh_Ok _ _ _ _ _ _ _ _ _ _ _ _ _ Hreg Hrun)
    as (env' & manifest' & Henv & Hm & Htemplates).
  eexists. split; [exact Htemplates|]. simpl. split.
  - intros ->. rewrite infer_outputs_None in Henv. injection Henv as <-.
    simpl in Hm. injection Hm as <-. reflexivity.
  - intros Hsome.
    pose proof (infer_outputs_not_None _ _ _ Hsome Henv) as Hsome'.
    assert (obind (safe_load manifest) (fun manifest_dict =>
            obind (patch_manifest manifest_dict
                     (fst (fst (generate_parameters_run_job env'))))
                  (fun manifest_dict => Ok (dump manifest_dict)))
            = Ok manifest') as Hm'.
    { destruct env'; try exact Hm. congruence. }
    destruct (safe_load manifest) as [d|x]; [|discriminate Hm'].
    simpl in Hm'.
    destruct (patch_manifest d _) as [d'|x] eqn:Hpatch; [|discriminate Hm'].
    injection Hm' as <-.
    exists env', d, d'.
    destruct (patch_manifest_fields _ _ _ Hpatch) as (He & Hl & Hframe).
    repeat split; assumption.
Qed.

End run_job_facts.

(** ** Where the returned proxy is stored *)

Section stored_outputs.
Context `{Collaborators}.

(** [run_job] keeps the caller's [step_name]: the resolved name the
    assembler returns is dropped, the proxy is built from, and stored
    under, the [step_name] argument. *)
Lemma run_job_stores_under_step_name_argument (loc : call_site)
    (manifest : option string)
    (success_condition failure_condition timeout retry : pyval)
    (step_name : option string) (pool env set_owner_reference : pyval)
    (st st' : States) (r : pyval) :
  let func_name := resolve_func_name loc step_name in
  run_job loc manifest success_condition failure_condition timeout retry
    step_name pool env set_owner_reference st = (Ok r, st') ->
  r = job_output step_name func_name /\
  exists st1,
    st' = mkStates (workflow st1) (_outputs_tmp st1)
            (<[step_name := r]> (_steps_outputs st)) /\
    step_appended func_name st st1.
Proof.
  intros func_name.
  destruct manifest as [manifest|]; [|discriminate].
  destruct (assoc func_name (templates (workflow st))) as [t|] eqn:Hreg.
  - rewrite (run_job_registered _ _ _ _ _ _ _ _ _ _ _ _ Hreg).
    fold func_name. unfold bind.
    destruct (update_step _ _ _ _ st) as [[sn|x] st1] eqn:Hup; [|discriminate].
    intros [= <- <-]. split; [reflexivity|]. exists st1.
    apply update_step_Ok in Hup as [-> ->]. simpl. split; [reflexivity|].
    eexists. simpl. split; [reflexivity|]. split; reflexivity.
  - rewrite (run_job_fresh _ _ _ _ _ _ _ _ _ _ _ Hreg).
    fold func_name. unfold bind, lift.
    destruct (infer_outputs env (_outputs_tmp st)) as [env'|x]; [|discriminate].
    destruct (update_manifest _ _ _) as [manifest'|x]; [|discriminate].
    rewrite add_template_fresh by exact Hreg.
    match goal with |- context [update_step ?a ?b ?c ?d ?s] =>
      destruct (update_step a b c d s) as [[sn|x] st1] eqn:Hup end;
      [|discriminate].
    intros [= <- <-]. split; [reflexivity|]. exists st1.
    apply update_step_Ok in Hup as [-> ->]. simpl. split; [reflexivity|].
    eexists. simpl. split; [reflexivity|]. split; reflexivity.
Qed.

(** [run_script] builds its proxy from the resolved step name and stores
    it under that name. *)
Lemma run_script_stores_under_resolved_name (loc : call_site)
    (image command source env resources secret timeout retry : pyval)
    (step_name : option string) (image_pull_policy pool daemon : pyval)
    (st st' : States) (r : pyval) :
  let func_name := resolve_func_name loc step_name in
  let resolved :=
    instance_name func_name (instances func_name (steps (workflow st))) in
  run_script loc image command source env resources secret timeout retry
    step_name image_pull_policy pool daemon st = (Ok r, st') ->
  r = script_output resolved func_name /\
  _steps_outputs st' = <[Some resolved := r]> (_steps_outputs st).
Proof.
  intros func_name resolved.
  destruct (assoc func_name (templates (workflow st))) as [t|] eqn:Hreg.
  - rewrite (run_script_registered _ _ _ _ _ _ _ _ _ _ _ _ _ _ _ Hreg).
    unfold bind.
    destruct (update_step _ _ _ _ st) as [[sn|x] st1] eqn:Hup; [|discriminate].
    apply update_step_Ok in Hup as [-> ->]. intros [= <- <-].
    split; reflexivity.
  - destruct (decide (source = PNone)) as [->|Hsource].
    { rewrite run_script_fresh_no_source by exact Hreg. discriminate. }
    rewrite run_script_fresh by assumption.
    unfold bind. rewrite add_template_fresh by exact Hreg.
    match goal with |- context [update_step ?a ?b ?c ?d ?s] =>
      destruct (update_step a b c d s) as [[sn|x] st1] eqn:Hup end;
      [|discriminate].
    apply update_step_Ok in Hup as [-> ->]. intros [= <- <-].
    split; reflexivity.
Qed.

End stored_outputs.

(** ** The claims on run_script and run_job at concrete calls *)

Section run_job_examples.
Import demo.

Lemma run_script_missing_source_witness :
  fst (script PNone (Some "train-model") initial) = Raise MissingSourceError /\
  snd (script PNone (Some "train-model") initial) = initial.
Proof.
  destruct (@run_script_missing_source collaborators here (PStr "python:3.6")
              PNone PNone PNone PNone PNone PNone PNone (Some "train-model")
              PNone PNone (PBool false) initial) as [Hiff Hstate].
  assert (fst (script PNone (Some "train-model") initial)
          = Raise MissingSourceError) as Hraise
    by (apply Hiff; split; reflexivity).
  split; [exact Hraise|exact (Hstate Hraise)].
Defined.

Lemma run_job_patches_manifest_witness :
  exists registered,
    templates (workflow (snd (job None (PDict [("B", PStr "2")]) initial)))
    = [("train", TJob registered)] /\
    j_manifest registered = render pi_manifest_patched.
Proof.
  set (result := job None (PDict [("B", PStr "2")]) initial).
  assert (result =
          (Ok (match fst result with Ok r => r | Raise _ => PNone end),
           snd result)) as Hrun by (vm_compute; reflexivity).
  destruct (@run_job_patches_manifest collaborators here pi_manifest
              (PStr "status.succeeded > 0") (PStr "status.failed > 3") PNone
              PNone None PNone (PDict [("B", PStr "2")]) (PBool true)
              initial _ _ eq_refl Hrun) as (j & Htemplates & _ & _).
  exists j. split; [exact Htemplates|].
  assert (templates (workflow (snd result)) =
          [("train",
            TJob (mkJob "train" (PList []) "create"
                    (render pi_manifest_patched) (PBool true)
                    (PStr "status.succeeded > 0") (PStr "status.failed > 3")
                    PNone PNone PNone))]) as Hconcrete
    by (vm_compute; reflexivity).
  rewrite Hconcrete in Htemplates. injection Htemplates as <-. reflexivity.
Defined.

(** C7 as stated fails: the manifest's [spec.env] holds an entry [A]; with
    the environment mapping [{B: 2}] the registered template's manifest
    has the generated entry only, [A] is gone. *)
Lemma run_job_replaces_manifest_env :
  let old_entry := PDict [("name", PStr "A"); ("value", PInt 1)] in
  let env := PDict [("B", PStr "2")] in
  let result := job None env initial in
  @safe_load collaborators pi_manifest = Ok pi_manifest_dict /\
  py_path env_path pi_manifest_dict = Some (PList [old_entry]) /\
  patch_manifest pi_manifest_dict (env_entries env) = Ok pi_manifest_patched /\
  py_path env_path pi_manifest_patched = Some (env_entries env) /\
  ~ In old_entry (elements (env_entries env)) /\
  templates (workflow (snd result)) =
    [("train",
      TJob (mkJob "train" (PList []) "create" (render pi_manifest_patched)
              (PBool true) (PStr "status.succeeded > 0")
              (PStr "status.failed > 3") PNone PNone PNone))].
Proof.
  cbv zeta. repeat split; try (vm_compute; reflexivity).
  intros [E|[]]. discriminate E.
Qed.

(** C6 at a [run_job] call without [step_name]: the step is recorded as
    [train], the name the assembler resolved, but the proxy is built from
    [step_name=None] and stored under the key [None]; nothing is stored
    under [train]. *)
Theorem run_job_drops_resolved_step_name :
  let result := job None PNone initial in
  fst result = Ok (@job_output collaborators None "train") /\
  map step_name (steps (workflow (snd result))) = ["train"] /\
  _steps_outputs (snd result) !! Some "train" = None /\
  _steps_outputs (snd result) !! (None : option string)
    = Some (@job_output collaborators None "train").
Proof. cbv zeta. repeat split; vm_compute; reflexivity. Qed.

(** The same defect on a repeated call with an explicit [step_name]: the
    second step is [s1-2], its proxy is stored under [s1]. *)
Example run_job_repeated_step_name :
  let result :=
    (let* _ := job (Some "s1") PNone in job (Some "s1") PNone) initial in
  map step_name (steps (workflow (snd result))) = ["s1"; "s1-2"] /\
  _steps_outputs (snd result) !! Some "s1-2" = None /\
  _steps_outputs (snd result) !! Some "s1"
    = Some (@job_output collaborators (Some "s1") "s1").
Proof. cbv zeta. repeat split; vm_compute; reflexivity. Qed.

(** [run_script] and [run_container] on the same repetition store each
    proxy under the resolved name. *)
Example run_script_repeated_step_name :
  let result :=
    (let* _ := script (PStr "print(1)") (Some "s1") in
     script (PStr "print(1)") (Some "s1")) initial in
  map step_name (steps (workflow (snd result))) = ["s1"; "s1-2"] /\
  _steps_outputs (snd result) !! Some "s1-2"
    = Some (@script_output collaborators "s1-2" "s1").
Proof. cbv zeta. repeat split; vm_compute; reflexivity. Qed.

End run_job_examples.

(* ===================================================================== *)
(** * Part III: further properties of the code *)
(* ===================================================================== *)

(** ** escape_sql as a character-wise encoding *)

Module sqlflow_chars_facts.
Import sqlflow sqlflow_chars.

Lemma escape_sql_passes (s : string) :
  escape_sql s = escape_sql_sequential s.
Proof.
  unfold escape_sql, escape_sql_sequential.
  rewrite !sqlflow_facts.replace_single. reflexivity.
Qed.

Lemma append_cons (x : ascii) (a b : string) :
  String x a +:+ b = String x (a +:+ b).
Proof. reflexivity. Qed.

Lemma append_assoc (a b c : string) : (a +:+ b) +:+ c = a +:+ (b +:+ c).
Proof.
  induction a as [|x a IH]; [reflexivity|].
  rewrite !append_cons, IH. reflexivity.
Qed.

Lemma replace_each_append (c : ascii) (r a b : string) :
  replace_each c r (a +:+ b) = replace_each c r a +:+ replace_each c r b.
Proof.
  induction a as [|x a IH]; [reflexivity|].
  rewrite append_cons. cbn [replace_each].
  destruct (Ascii.eqb x c); rewrite IH.
  - symmetry. apply append_assoc.
  - reflexivity.
Qed.

Lemma is_special_false (c : ascii) :
  is_special c = false ->
  Ascii.eqb c backslash = false /\ Ascii.eqb c dquote = false /\
  Ascii.eqb c backtick = false /\ Ascii.eqb c dollar = false.
Proof.
  unfold is_special. intros Hc.
  apply orb_false_iff in Hc as [Hc H4].
  apply orb_false_iff in Hc as [Hc H3].
  apply orb_false_iff in Hc as [H1 H2]. auto.
Qed.

Lemma is_special_true (c : ascii) :
  is_special c = true ->
  c = backslash \/ c = dquote \/ c = backtick \/ c = dollar.
Proof.
  unfold is_special. intros Hc.
  apply orb_true_iff in Hc as [Hc|H4].
  - apply orb_true_iff in Hc as [Hc|H3].
    + apply orb_true_iff in Hc as [H1|H2].
      * left. apply Ascii.eqb_eq, H1.
      * right. left. apply Ascii.eqb_eq, H2.
    + right. right. left. apply Ascii.eqb_eq, H3.
  - right. right. right. apply Ascii.eqb_eq, H4.
Qed.

(** The four passes on one leading character. *)
Lemma escape_sql_sequential_cons (c : ascii) (s : string) :
  escape_sql_sequential (String c s) =
  escape_char c +:+ escape_sql_sequential s.
Proof.
  unfold escape_sql_sequential, escape_char.
  destruct (is_special c) eqn:Hc.
  - apply is_special_true in Hc as [-> | [-> | [-> | ->]]]; cbn;
      rewrite ?replace_each_append; reflexivity.
  - apply is_special_false in Hc as (H1 & H2 & H3 & H4).
    cbn [replace_each]. rewrite H1. cbn [replace_each]. rewrite H2.
    cbn [replace_each]. rewrite H3. cbn [replace_each]. rewrite H4.
    reflexivity.
Qed.

Lemma escape_sql_as_chars (s : string) : escape_sql s = escape_chars s.
Proof.
  rewrite escape_sql_passes.
  induction s as [|c s IH]; [reflexivity|].
  rewrite escape_sql_sequential_cons, IH. reflexivity.
Qed.

(** X1. The four sequential passes amount to one pass over the
    characters: each backslash, double quote, backtick and dollar sign
    gets exactly one backslash in front, every other character is copied.
    The backslashes the later passes insert are never escaped again. *)
Theorem escape_sql_charwise (s : string) : escape_sql s = escape_chars s.
Proof. exact (escape_sql_as_chars s). Qed.

Lemma escape_chars_cons (c : ascii) (s : string) :
  escape_chars (String c s) =
  if is_special c then String backslash (String c (escape_chars s))
  else String c (escape_chars s).
Proof.
  cbn [escape_chars]. unfold escape_char.
  destruct (is_special c); reflexivity.
Qed.

Lemma escape_chars_append (a b : string) :
  escape_chars (a +:+ b) = escape_chars a +:+ escape_chars b.
Proof.
  induction a as [|c a IH]; [reflexivity|].
  rewrite append_cons. cbn [escape_chars].
  rewrite IH, append_assoc. reflexivity.
Qed.

(** X2. Escaping a concatenation is concatenating the escapes: a
    statement can be escaped piece by piece. *)
Theorem escape_sql_append (a b : string) :
  escape_sql (a +:+ b) = escape_sql a +:+ escape_sql b.
Proof. rewrite !escape_sql_as_chars. apply escape_chars_append. Qed.

Lemma length_escape_chars (s : string) :
  String.length (escape_chars s) = String.length s + count_special s.
Proof.
  induction s as [|c s IH]; [reflexivity|].
  rewrite escape_chars_cons. cbn [count_special].
  destruct (is_special c); cbn [String.length]; rewrite IH; lia.
Qed.

(** X3. The escaped statement is longer than the statement by exactly
    the number of backslashes, double quotes, backticks and dollar signs
    in it. *)
Theorem escape_sql_length (s : string) :
  String.length (escape_sql s) = String.length s + count_special s.
Proof. rewrite escape_sql_as_chars. apply length_escape_chars. Qed.

Lemma unescape_covered (d : ascii) (s : string) :
  unescape (String backslash (String d s)) = String d (unescape s).
Proof. reflexivity. Qed.

Lemma unescape_plain (c : ascii) (s : string) :
  Ascii.eqb c backslash = false ->
  unescape (String c s) = String c (unescape s).
Proof.
  intros Hc. change (unescape (String c s)) with
    (if Ascii.eqb c backslash
     then match s with
          | EmptyString => str1 c
          | String d s'' => String d (unescape s'')
          end
     else String c (unescape s)).
  rewrite Hc. reflexivity.
Qed.

Lemma well_escaped_covered (d : ascii) (s : string) :
  well_escaped (String backslash (String d s)) =
  is_special d && well_escaped s.
Proof. reflexivity. Qed.

Lemma well_escaped_plain (c : ascii) (s : string) :
  Ascii.eqb c backslash = false ->
  well_escaped (String c s) = negb (is_special c) && well_escaped s.
Proof.
  intros Hc. change (well_escaped (String c s)) with
    (if Ascii.eqb c backslash
     then match s with
          | EmptyString => false
          | String d s'' => is_special d && well_escaped s''
          end
     else negb (is_special c) && well_escaped s).
  rewrite Hc. reflexivity.
Qed.

Lemma unescape_escape_chars (s : string) : unescape (escape_chars s) = s.
Proof.
  induction s as [|c s IH]; [reflexivity|].
  rewrite escape_chars_cons.
  destruct (is_special c) eqn:Hc.
  - rewrite unescape_covered, IH. reflexivity.
  - apply is_special_false in Hc as (H1 & _).
    rewrite (unescape_plain _ _ H1), IH. reflexivity.
Qed.

(** X4. [escape_sql] loses nothing: dropping the covering backslashes
    gives the statement back. *)
Theorem unescape_escape_sql (s : string) : unescape (escape_sql s) = s.
Proof. rewrite escape_sql_as_chars. apply unescape_escape_chars. Qed.

(** X5. Two different statements never escape to the same text. *)
Theorem escape_sql_injective (a b : string) :
  escape_sql a = escape_sql b -> a = b.
Proof.
  rewrite !escape_sql_as_chars. intros Heq.
  rewrite <- (unescape_escape_chars a), Heq.
  apply unescape_escape_chars.
Qed.

(** X6. In the escaped statement no double quote, backtick, dollar sign
    or backslash stands uncovered: each is preceded by a backslash of its
    own, so the text cannot close the double quotes it is put between. *)
Theorem escape_sql_well_escaped (s : string) :
  well_escaped (escape_sql s) = true.
Proof.
  rewrite escape_sql_as_chars.
  induction s as [|c s IH]; [reflexivity|].
  rewrite escape_chars_cons.
  destruct (is_special c) eqn:Hc.
  - rewrite well_escaped_covered, Hc, IH. reflexivity.
  - pose proof (is_special_false _ Hc) as (H1 & _).
    rewrite (well_escaped_plain _ _ H1), Hc, IH. reflexivity.
Qed.

Lemma has_special_count (s : string) :
  has_special s = false <-> count_special s = 0.
Proof.
  unfold has_special.
  induction s as [|c s IH]; [split; reflexivity|].
  cbn [occurs count_special].
  assert (is_special c = false /\
          (occurs backslash s || occurs dquote s || occurs backtick s
           || occurs dollar s = false) <->
          (Ascii.eqb c backslash || occurs backslash s)
          || (Ascii.eqb c dquote || occurs dquote s)
          || (Ascii.eqb c backtick || occurs backtick s)
          || (Ascii.eqb c dollar || occurs dollar s) = false) as Hsplit.
  { unfold is_special.
    destruct (Ascii.eqb c backslash), (Ascii.eqb c dquote),
      (Ascii.eqb c backtick), (Ascii.eqb c dollar),
      (occurs backslash s), (occurs dquote s), (occurs backtick s),
      (occurs dollar s); cbn; intuition congruence. }
  rewrite <- Hsplit, IH.
  destruct (is_special c); cbn; intuition (try congruence; try lia).
Qed.

Lemma count_special_escape_chars (s : string) :
  count_special s <= count_special (escape_chars s).
Proof.
  induction s as [|c s IH]; [reflexivity|].
  rewrite escape_chars_cons. cbn [count_special].
  destruct (is_special c) eqn:Hc; cbn [count_special]; rewrite ?Hc.
  - change (is_special backslash) with true. cbv iota. lia.
  - cbv iota. lia.
Qed.

(** X7. Escaping is idempotent only where it has nothing to do: escaping
    twice gives the once-escaped text exactly when the statement has none
    of the four characters; otherwise the second pass changes the text
    again. *)
Theorem escape_sql_twice (s : string) :
  escape_sql (escape_sql s) = escape_sql s <-> has_special s = false.
Proof.
  split.
  - intros Htwice. apply has_special_count.
    rewrite !escape_sql_as_chars in Htwice.
    apply (f_equal String.length) in Htwice.
    rewrite !length_escape_chars in Htwice.
    pose proof (count_special_escape_chars s) as Hle. lia.
  - intros Hnone.
    assert (escape_sql s = s) as Hs.
    { rewrite escape_sql_passes. unfold escape_sql_sequential.
      unfold has_special in Hnone.
      apply orb_false_iff in Hnone as [Hnone H4].
      apply orb_false_iff in Hnone as [Hnone H3].
      apply orb_false_iff in Hnone as [H1 H2].
      rewrite (sqlflow_facts.replace_each_absent backslash) by assumption.
      rewrite (sqlflow_facts.replace_each_absent dquote) by assumption.
      rewrite (sqlflow_facts.replace_each_absent backtick) by assumption.
      apply sqlflow_facts.replace_each_absent. assumption. }
    rewrite !Hs. reflexivity.
Qed.

Lemma escape_sql_twice_witness :
  escape_sql (escape_sql "SELECT 1") = escape_sql "SELECT 1".
Proof.
  apply (proj2 (escape_sql_twice "SELECT 1")). reflexivity.
Defined.

Lemma escape_sql_injective_witness :
  escape_sql "a$b" = escape_sql "a$b" /\ "a$b" = "a$b".
Proof.
  split; [reflexivity|]. apply escape_sql_injective. reflexivity.
Defined.

End sqlflow_chars_facts.

(** ** The sqlflow step *)

Section sqlflow_step_facts.
Context `{Collaborators} `{Builtins}.

(** X8. With a log file, the [sleep] at the end of the command is
    [sleep 0] whenever [env] is not a dict or is a dict without the key
    [SQLFLOW_WORKFLOW_EXIT_TIME_WAIT]: the integer default of the first
    case and the string default of the second print alike, and the whole
    command is the one built without any [env]. *)
Theorem sqlflow_command_default_wait (sql : string) (env : pyval)
    (log_file : option string) :
  (forall d, env = PDict d ->
             assoc "SQLFLOW_WORKFLOW_EXIT_TIME_WAIT" d = None) ->
  py_str (exit_time_wait env) = "0" /\
  sqlflow_command sql env log_file = sqlflow_command sql PNone log_file.
Proof.
  intros Hkey.
  assert (py_str (exit_time_wait env) = "0") as Hwait.
  { destruct env as [| | | | | |d]; try reflexivity.
    unfold exit_time_wait. rewrite (Hkey d eq_refl). reflexivity. }
  split; [exact Hwait|].
  unfold sqlflow_command. rewrite Hwait. reflexivity.
Qed.

(** X9. A [sqlflow] call whose call site has no template yet registers
    one container template carrying the built command, the image and the
    environment, with the staged outputs (if any) as its arguments;
    the proxy [run_container] builds is stored under the resolved step
    name, and [sqlflow] itself returns [None]. *)
Theorem sqlflow_registers_container (loc : call_site) (sql : string)
    (image env secret resources : pyval) (log_file : option string)
    (st st' : States) (r : pyval) :
  let resolved :=
    instance_name (fst loc) (instances (fst loc) (steps (workflow st))) in
  assoc (fst loc) (templates (workflow st)) = None ->
  sqlflow loc sql image env secret resources log_file st = (Ok r, st') ->
  r = PNone /\
  exists c,
    templates (workflow st') =
      (templates (workflow st) ++ [(fst loc, TContainer c)])%list /\
    c_command c = PStr (sqlflow_command sql env log_file) /\
    c_image c = image /\ c_env c = env /\
    c_args c = match _outputs_tmp st with
               | None => PNone
               | Some staged => PList staged
               end /\
    _steps_outputs st' !! Some resolved =
      Some (container_output resolved (fst loc)
              (to_dict_outputs (TContainer c))).
Proof.
  intros resolved Hreg. unfold sqlflow, bind.
  destruct (run_container _ _ _ _ _ _ _ _ _ _ _ _ _ _ _ _ _ st)
    as [[r0|x] st1] eqn:Hrun; [|discriminate].
  intros [= <- <-]. split; [reflexivity|].
  apply (run_container_fresh_Ok loc _ _ _ _ _ _ _ _ _ _ None _ _ _ _ _
           st st1 r0 Hreg) in Hrun as [-> ->].
  eexists. split; [reflexivity|]. cbn [c_command c_image c_env c_args].
  repeat split.
  - destruct (_outputs_tmp st); reflexivity.
  - cbn [_steps_outputs]. apply lookup_insert_eq.
Qed.

(** X10. Under a call site whose template is already registered,
    [sqlflow] does not look at its statement: two calls that differ in the
    SQL, the image, the environment, the secret, the resources and the log
    file have the same outcome, the registered command stays the first
    one. *)
Theorem sqlflow_reuse_ignores_statement (loc : call_site)
    (sql sql' : string) (image image' env env' secret secret' : pyval)
    (resources resources' : pyval) (log_file log_file' : option string)
    (st : States) (t : Template) :
  assoc (fst loc) (templates (workflow st)) = Some t ->
  sqlflow loc sql image env secret resources log_file st =
  sqlflow loc sql' image' env' secret' resources' log_file' st /\
  templates (workflow (snd (sqlflow loc sql image env secret resources
                              log_file st)))
  = templates (workflow st).
Proof.
  intros Hreg. unfold sqlflow, bind.
  rewrite !(run_container_registered loc _ _ _ _ _ _ _ _ _ _ None _ _ _ _ _
              st t Hreg).
  split; [reflexivity|].
  unfold bind.
  destruct (update_step _ _ _ _ st) as [[sn|x] st1] eqn:Hup.
  - apply update_step_Ok in Hup as [-> ->]. reflexivity.
  - apply update_step_Raise in Hup as [_ ->]. reflexivity.
Qed.

End sqlflow_step_facts.

Lemma sqlflow_command_default_wait_witness :
  @sqlflow_command demo_more.builtins "SELECT 1"
    (PDict [("OTHER", PStr "x")]) (Some "/var/log/step.log")
  = @sqlflow_command demo_more.builtins "SELECT 1" PNone
      (Some "/var/log/step.log").
Proof.
  apply (@sqlflow_command_default_wait demo_more.builtins).
  intros d [= <-]. reflexivity.
Defined.

Lemma sqlflow_registers_container_witness :
  fst (@sqlflow demo.collaborators demo_more.builtins demo.here "SELECT 1"
         (PStr "sqlflow/sqlflow") PNone PNone PNone None demo.initial)
  = Ok PNone.
Proof.
  set (result := sqlflow demo.here "SELECT 1" (PStr "sqlflow/sqlflow") PNone
                   PNone PNone None demo.initial).
  assert (result =
          (Ok (match fst result with Ok r => r | Raise _ => PNone end),
           snd result)) as Hrun by (vm_compute; reflexivity).
  assert (match fst result with Ok r => r | Raise _ => PNone end = PNone)
    as Hr
    by exact (proj1 (@sqlflow_registers_container demo.collaborators
                       demo_more.builtins demo.here "SELECT 1"
                       (PStr "sqlflow/sqlflow") PNone PNone PNone None
                       demo.initial _ _ eq_refl Hrun)).
  clearbody result.
  destruct result as [[r|x] st']; cbn in Hr, Hrun |- *;
    [congruence|discriminate Hrun].
Defined.

Lemma sqlflow_reuse_ignores_statement_witness :
  @sqlflow demo.collaborators demo_more.builtins ("s1", 3%Z) "SELECT 1"
    (PStr "sqlflow/sqlflow") PNone PNone PNone None demo.underway
  = @sqlflow demo.collaborators demo_more.builtins ("s1", 3%Z)
      "DROP TABLE t" (PStr "other/image") PNone PNone PNone
      (Some "/var/log/step.log") demo.underway.
Proof.
  exact (proj1 (@sqlflow_reuse_ignores_statement demo.collaborators
                  demo_more.builtins ("s1", 3%Z) "SELECT 1" "DROP TABLE t"
                  (PStr "sqlflow/sqlflow") (PStr "other/image") PNone PNone
                  PNone PNone PNone PNone None (Some "/var/log/step.log")
                  demo.underway _ eq_refl)).
Defined.

(** ** Calls under a registered name *)

Section reuse_facts.
Context `{Collaborators}.

(** X11. Once a name is registered, [run_script] under that name looks at
    none of its template parameters: image, command, source, environment,
    resources, secret, timeout, retry, pull policy, pool and daemon flag
    may all differ (the source may even be missing) and the outcome is the
    same, with the registered template untouched. *)
Theorem run_script_reuse_ignores_payload (loc : call_site)
    (image command source env resources secret timeout retry : pyval)
    (image' command' source' env' resources' secret' timeout' retry' : pyval)
    (step_name : option string)
    (image_pull_policy pool daemon image_pull_policy' pool' daemon' : pyval)
    (st : States) (t : Template) :
  assoc (resolve_func_name loc step_name) (templates (workflow st)) = Some t ->
  run_script loc image command source env resources secret timeout retry
    step_name image_pull_policy pool daemon st
  = run_script loc image' command' source' env' resources' secret' timeout'
      retry' step_name image_pull_policy' pool' daemon' st
  /\
  templates (workflow (snd (run_script loc image command source env
                              resources secret timeout retry step_name
                              image_pull_policy pool daemon st)))
  = templates (workflow st).
Proof.
  intros Hreg.
  rewrite !(run_script_registered _ _ _ _ _ _ _ _ _ _ _ _ _ _ _ Hreg).
  split; [reflexivity|].
  unfold bind.
  destruct (update_step _ _ _ _ st) as [[sn|x] st1] eqn:Hup.
  - apply update_step_Ok in Hup as [-> ->]. reflexivity.
  - apply update_step_Raise in Hup as [_ ->]. reflexivity.
Qed.

(** X12. Once a name is registered, [run_container] under that name looks
    at nothing but [args]: image, command, output, input, environment and
    the rest may differ and the outcome is the same, with the registered
    template untouched. *)
Theorem run_container_reuse_ignores_payload (loc : call_site)
    (image command args output : pyval) (input : option (list pyval))
    (env secret resources timeout retry : pyval)
    (image' command' output' : pyval) (input' : option (list pyval))
    (env' secret' resources' timeout' retry' : pyval)
    (step_name : option string)
    (image_pull_policy pool enable_ulogfs daemon volume_mounts : pyval)
    (image_pull_policy' pool' enable_ulogfs' daemon' volume_mounts' : pyval)
    (st : States) (t : Template) :
  assoc (resolve_func_name loc step_name) (templates (workflow st)) = Some t ->
  run_container loc image command args output input env secret resources
    timeout retry step_name image_pull_policy pool enable_ulogfs daemon
    volume_mounts st
  = run_container loc image' command' args output' input' env' secret'
      resources' timeout' retry' step_name image_pull_policy' pool'
      enable_ulogfs' daemon' volume_mounts' st
  /\
  templates (workflow (snd (run_container loc image command args output
                              input env secret resources timeout retry
                              step_name image_pull_policy pool enable_ulogfs
                              daemon volume_mounts st)))
  = templates (workflow st).
Proof.
  intros Hreg.
  rewrite !(run_container_registered _ _ _ _ _ _ _ _ _ _ _ _ _ _ _ _ _ _ _
              Hreg).
  split; [reflexivity|].
  unfold bind.
  destruct (update_step _ _ _ _ st) as [[sn|x] st1] eqn:Hup.
  - apply update_step_Ok in Hup as [-> ->]. reflexivity.
  - apply update_step_Raise in Hup as [_ ->]. reflexivity.
Qed.

(** X13. Once a name is registered, [run_job] under that name looks at
    nothing but whether a manifest was given: the manifest text is neither
    parsed nor compared, the environment mapping is not read, the step
    gets the empty argument list, and the registered template is
    untouched. *)
Theorem run_job_reuse_ignores_payload (loc : call_site)
    (manifest manifest' : string)
    (success_condition failure_condition timeout retry : pyval)
    (success_condition' failure_condition' timeout' retry' : pyval)
    (step_name : option string)
    (pool env set_owner_reference pool' env' set_owner_reference' : pyval)
    (st : States) (t : Template) :
  assoc (resolve_func_name loc step_name) (templates (workflow st)) = Some t ->
  run_job loc (Some manifest) success_condition failure_condition timeout
    retry step_name pool env set_owner_reference st
  = run_job loc (Some manifest') success_condition' failure_condition'
      timeout' retry' step_name pool' env' set_owner_reference' st
  /\
  templates (workflow (snd (run_job loc (Some manifest) success_condition
                              failure_condition timeout retry step_name
                              pool env set_owner_reference st)))
  = templates (workflow st)
  /\
  forall r st',
    run_job loc (Some manifest) success_condition failure_condition timeout
      retry step_name pool env set_owner_reference st = (Ok r, st') ->
    exists step,
      steps (workflow st') = (steps (workflow st) ++ [step])%list /\
      step_args step = PList [] /\
      _outputs_tmp st' = _outputs_tmp st.
Proof.
  intros Hreg.
  rewrite !(run_job_registered _ _ _ _ _ _ _ _ _ _ _ _ Hreg).
  split; [reflexivity|]. unfold bind.
  destruct (update_step _ _ _ _ st) as [[sn|x] st1] eqn:Hup.
  - apply update_step_Ok in Hup as [-> ->]. split; [reflexivity|].
    intros r st' [= <- <-]. eexists. repeat split.
  - apply update_step_Raise in Hup as [_ ->]. split; [reflexivity|].
    discriminate.
Qed.

End reuse_facts.

Lemma run_script_reuse_ignores_payload_witness :
  demo.script (PStr "print(1)") (Some "s1") demo.underway
  = demo.script PNone (Some "s1") demo.underway.
Proof.
  exact (proj1 (@run_script_reuse_ignores_payload demo.collaborators
                  demo.here (PStr "python:3.6") PNone (PStr "print(1)")
                  PNone PNone PNone PNone PNone
                  (PStr "python:3.6") PNone PNone PNone PNone PNone PNone
                  PNone (Some "s1") PNone PNone (PBool false) PNone PNone
                  (PBool false) demo.underway _ eq_refl)).
Defined.

Lemma run_container_reuse_ignores_payload_witness :
  demo.container (PStr "echo") None (Some "s1") demo.underway
  = demo.container (PStr "echo") (Some [POutput demo.artifact]) (Some "s1")
      demo.underway.
Proof.
  exact (proj1 (@run_container_reuse_ignores_payload demo.collaborators
                  demo.here (PStr "alpine") PNone (PStr "echo") PNone None
                  PNone PNone PNone PNone PNone
                  (PStr "alpine") PNone PNone (Some [POutput demo.artifact])
                  PNone PNone PNone PNone PNone
                  (Some "s1") PNone PNone (PBool true) (PBool false) PNone
                  PNone PNone (PBool true) (PBool false) PNone
                  demo.underway _ eq_refl)).
Defined.

Lemma run_job_reuse_ignores_payload_witness :
  demo.job (Some "s1") PNone demo.underway
  = demo.job (Some "s1") (PDict [("B", PStr "2")]) demo.underway.
Proof.
  exact (proj1 (@run_job_reuse_ignores_payload demo.collaborators demo.here
                  demo.pi_manifest demo.pi_manifest
                  (PStr "status.succeeded > 0") (PStr "status.failed > 3")
                  PNone PNone
                  (PStr "status.succeeded > 0") (PStr "status.failed > 3")
                  PNone PNone (Some "s1") PNone PNone (PBool true) PNone
                  (PDict [("B", PStr "2")]) (PBool true)
                  demo.underway _ eq_refl)).
Defined.

(** ** run_container: what the normalisation does to the arguments *)

Section normalisation_facts.
Context `{Collaborators}.

(** X14. The list-of-list rule keeps the first element only: when
    [args[0]] is a non-empty list that starts with a proxy, [args] becomes
    that list and whatever followed it in [args] is dropped without
    notice. *)
Theorem run_container_flattening_drops_rest (loc : call_site)
    (image command output : pyval) (input : option (list pyval))
    (env secret resources timeout retry : pyval)
    (step_name : option string)
    (image_pull_policy pool enable_ulogfs daemon volume_mounts : pyval)
    (proxy : Output) (inner others : list pyval) (st : States) :
  assoc (resolve_func_name loc step_name) (templates (workflow st)) = None ->
  run_container loc image command
    (PList (PList (POutput proxy :: inner) :: others)) output input env
    secret resources timeout retry step_name image_pull_policy pool
    enable_ulogfs daemon volume_mounts st
  = run_container loc image command (PList (POutput proxy :: inner)) output
      input env secret resources timeout retry step_name image_pull_policy
      pool enable_ulogfs daemon volume_mounts st.
Proof.
  intros Hreg.
  rewrite !(run_container_fresh _ _ _ _ _ _ _ _ _ _ _ _ _ _ _ _ _ _ Hreg).
  reflexivity.
Qed.

(** X15. On a call that constructs the template, a single argument that
    is neither [None] nor a list is the same as the one-element list
    holding it. *)
Theorem run_container_promotes_scalar (loc : call_site)
    (image command args output : pyval) (input : option (list pyval))
    (env secret resources timeout retry : pyval)
    (step_name : option string)
    (image_pull_policy pool enable_ulogfs daemon volume_mounts : pyval)
    (st : States) :
  assoc (resolve_func_name loc step_name) (templates (workflow st)) = None ->
  args <> PNone ->
  (forall l, args <> PList l) ->
  run_container loc image command args output input env secret resources
    timeout retry step_name image_pull_policy pool enable_ulogfs daemon
    volume_mounts st
  = run_container loc image command (PList [args]) output input env secret
      resources timeout retry step_name image_pull_policy pool enable_ulogfs
      daemon volume_mounts st.
Proof.
  intros Hreg Hsome Hscalar.
  rewrite !(run_container_fresh _ _ _ _ _ _ _ _ _ _ _ _ _ _ _ _ _ _ Hreg).
  assert (normalize_args args input (_outputs_tmp st)
          = normalize_args (PList [args]) input (_outputs_tmp st)) as ->;
    [|reflexivity].
  destruct args; try reflexivity; [congruence|].
  exfalso. exact (Hscalar _ eq_refl).
Qed.


(** X17. The [input] of a constructed container template is the caller's
    [input] (empty when omitted) followed by the artifact and job proxies
    of the template's arguments, in their order; nothing is checked for
    being there already, so a proxy listed in both appears twice. *)
Theorem run_container_input_layout (loc : call_site)
    (image command args output : pyval) (input : option (list pyval))
    (env secret resources timeout retry : pyval)
    (step_name : option string)
    (image_pull_policy pool enable_ulogfs daemon volume_mounts : pyval)
    (st st' : States) (r : pyval) :
  let func_name := resolve_func_name loc step_name in
  assoc func_name (templates (workflow st)) = None ->
  run_container loc image command args output input env secret resources
    timeout retry step_name image_pull_policy pool enable_ulogfs daemon
    volume_mounts st = (Ok r, st') ->
  exists c,
    assoc func_name (templates (workflow st')) = Some (TContainer c) /\
    c_input c =
      (match input with None => [] | Some l => l end ++
       List.filter isinstance_OutputArtifact_OutputJob (elements (c_args c)))%list.
Proof.
  intros func_name Hreg Hrun.
  apply (run_container_fresh_Ok _ _ _ _ _ _ _ _ _ _ _ _ _ _ _ _ _ _ _ _
           Hreg) in Hrun as [_ ->].
  eexists. split.
  { cbn [workflow templates]. rewrite (assoc_app_None _ _ _ Hreg).
    cbn [assoc]. fold func_name. rewrite String.eqb_refl. reflexivity. }
  cbn [c_input c_args].
  destruct (normalize_args_shape args input (_outputs_tmp st))
    as [(_ & _ & ->)|[l ->]]; cbn [fst snd elements List.filter].
  - rewrite List.app_nil_r. reflexivity.
  - reflexivity.
Qed.


End normalisation_facts.

Section normalisation_examples.
Import demo.

Lemma run_container_flattening_drops_rest_witness :
  container (PList [PList [POutput proxy_a]; PStr "--verbose";
                    POutput proxy_b]) None None initial
  = container (PList [POutput proxy_a]) None None initial.
Proof.
  exact (@run_container_flattening_drops_rest collaborators here
           (PStr "alpine") PNone PNone None PNone PNone PNone PNone PNone
           None PNone PNone (PBool true) (PBool false) PNone proxy_a []
           [PStr "--verbose"; POutput proxy_b] initial eq_refl).
Defined.

Lemma run_container_promotes_scalar_witness :
  container (PStr "echo") None None initial
  = container (PList [PStr "echo"]) None None initial.
Proof.
  apply (@run_container_promotes_scalar collaborators here (PStr "alpine")
           PNone (PStr "echo") PNone None PNone PNone PNone PNone PNone
           None PNone PNone (PBool true) (PBool false) PNone initial eq_refl);
    discriminate.
Defined.


Lemma run_container_input_layout_witness :
  exists c,
    assoc "train"
      (templates (workflow (snd (container (PList [POutput artifact])
                                   (Some [POutput artifact]) None
                                   underway))))
    = Some (TContainer c) /\
    c_input c =
      ([POutput artifact] ++
       List.filter isinstance_OutputArtifact_OutputJob (elements (c_args c)))%list.
Proof.
  set (result := container (PList [POutput artifact])
                   (Some [POutput artifact]) None underway).
  assert (result =
          (Ok (match fst result with Ok r => r | Raise _ => PNone end),
           snd result)) as Hrun by (vm_compute; reflexivity).
  exact (@run_container_input_layout collaborators here (PStr "alpine")
           PNone (PList [POutput artifact]) PNone
           (Some [POutput artifact]) PNone PNone PNone PNone PNone None
           PNone PNone (PBool true) (PBool false) PNone underway _ _
           eq_refl Hrun).
Defined.

(** The proxy listed in [input] and passed in [args] is in the template's
    [input] twice. *)
Example run_container_input_twice :
  map (fun nt => match snd nt with
                 | TContainer c => c_input c
                 | _ => []
                 end)
      (templates (workflow (snd (container (PList [POutput artifact])
                                   (Some [POutput artifact]) (Some "twice")
                                   initial))))
  = [[POutput artifact; POutput artifact]].
Proof. vm_compute. reflexivity. Qed.


End normalisation_examples.

(** ** run_job: failures before registration, staged outputs *)

Section run_job_edge_facts.
Context `{Collaborators}.

(** X19. With an environment mapping, a manifest that parses to a dict
    without [spec], or with a dict [spec] but without [metadata], makes
    [run_job] raise [KeyError] on that key before anything is registered:
    the state is the one it was called in. *)
Theorem run_job_manifest_missing_section (loc : call_site)
    (manifest : string)
    (success_condition failure_condition timeout retry : pyval)
    (step_name : option string) (pool env set_owner_reference : pyval)
    (st : States) (env' : pyval) (m : list (string * pyval)) :
  let call :=
    run_job loc (Some manifest) success_condition failure_condition timeout
      retry step_name pool env set_owner_reference in
  assoc (resolve_func_name loc step_name) (templates (workflow st)) = None ->
  env <> PNone ->
  infer_outputs env (_outputs_tmp st) = Ok env' ->
  safe_load manifest = Ok (PDict m) ->
  (assoc "spec" m = None -> call st = (Raise (KeyError "spec"), st)) /\
  (forall sp, assoc "spec" m = Some (PDict sp) ->
              assoc "metadata" m = None ->
              call st = (Raise (KeyError "metadata"), st)).
Proof.
  intros call Hreg Henv Hinfer Hload.
  pose proof (infer_outputs_not_None _ _ _ Henv Hinfer) as Henv'.
  assert (forall x,
             patch_manifest (PDict m)
               (fst (fst (generate_parameters_run_job env'))) = Raise x ->
             call st = (Raise x, st)) as Hpatch.
  { intros x Hx. unfold call.
    rewrite (run_job_fresh _ _ _ _ _ _ _ _ _ _ _ Hreg).
    unfold bind, lift. rewrite Hinfer.
    assert (update_manifest manifest env'
              (fst (fst (generate_parameters_run_job env'))) = Raise x)
      as ->; [|reflexivity].
    unfold update_manifest. rewrite Hload. cbn [obind]. rewrite Hx.
    destruct env'; try reflexivity. congruence. }
  split.
  - intros Hspec. apply Hpatch.
    unfold patch_manifest. cbn [py_getitem]. rewrite Hspec. reflexivity.
  - intros sp Hspec Hmeta. apply Hpatch.
    unfold patch_manifest. cbn [py_getitem obind py_setitem].
    rewrite Hspec. cbn [obind py_setitem py_getitem].
    rewrite (assoc_set_other "spec" "metadata") by discriminate.
    rewrite Hmeta. reflexivity.
Qed.

(** X20. With outputs staged, an environment that is neither [None] nor a
    dict makes [run_job] raise [TypeError] at
    [env["inferred_outputs"] = ...], before anything is registered. *)
Theorem run_job_env_not_a_dict (loc : call_site) (manifest : string)
    (success_condition failure_condition timeout retry : pyval)
    (step_name : option string) (pool env set_owner_reference : pyval)
    (st : States) (staged : list pyval) :
  assoc (resolve_func_name loc step_name) (templates (workflow st)) = None ->
  _outputs_tmp st = Some staged ->
  env <> PNone ->
  (forall d, env <> PDict d) ->
  run_job loc (Some manifest) success_condition failure_condition timeout
    retry step_name pool env set_owner_reference st
  = (Raise TypeError, st).
Proof.
  intros Hreg Htmp Henv Hdict.
  rewrite (run_job_fresh _ _ _ _ _ _ _ _ _ _ _ Hreg).
  unfold bind, lift. rewrite Htmp.
  destruct env; try reflexivity; [congruence|].
  exfalso. exact (Hdict _ eq_refl).
Qed.

(** X21. With outputs staged and a dict environment, the entries and the
    arguments of a freshly registered job are generated from the
    environment with the staged outputs written under
    [inferred_outputs], an entry the caller had under that key being
    replaced. *)
Theorem run_job_infers_outputs (loc : call_site) (manifest : string)
    (success_condition failure_condition timeout retry : pyval)
    (step_name : option string) (pool set_owner_reference : pyval)
    (d : list (string * pyval)) (staged : list pyval)
    (st st' : States) (r : pyval) :
  let func_name := resolve_func_name loc step_name in
  let inferred := PDict (assoc_set "inferred_outputs" (PList staged) d) in
  assoc func_name (templates (workflow st)) = None ->
  _outputs_tmp st = Some staged ->
  run_job loc (Some manifest) success_condition failure_condition timeout
    retry step_name pool (PDict d) set_owner_reference st = (Ok r, st') ->
  py_getitem inferred "inferred_outputs" = Ok (PList staged) /\
  (forall k, k <> "inferred_outputs" ->
             py_getitem inferred k = py_getitem (PDict d) k) /\
  exists job,
    templates (workflow st') =
      (templates (workflow st) ++ [(func_name, TJob job)])%list /\
    j_args job = snd (generate_parameters_run_job inferred) /\
    update_manifest manifest inferred
      (fst (fst (generate_parameters_run_job inferred)))
    = Ok (j_manifest job).
Proof.
  intros func_name inferred Hreg Htmp Hrun.
  split; [|split].
  - unfold inferred. cbn [py_getitem]. rewrite assoc_set_same. reflexivity.
  - intros k Hk. unfold inferred. cbn [py_getitem].
    rewrite assoc_set_other by exact Hk. reflexivity.
  - destruct (run_job_fresh_Ok _ _ _ _ _ _ _ _ _ _ _ _ _ Hreg Hrun)
      as (env' & manifest' & Henv & Hm & Htemplates).
    rewrite Htmp in Henv. cbn [infer_outputs py_setitem] in Henv.
    injection Henv as <-. fold inferred in Hm, Htemplates.
    eexists. split; [exact Htemplates|]. cbn [j_args j_manifest].
    split; [reflexivity|exact Hm].
Qed.

End run_job_edge_facts.

Section run_job_edge_examples.
Import demo.

Lemma run_job_manifest_missing_section_witness :
  @run_job demo_more.bare_collaborators here (Some "metadata: {}")
    (PStr "ok") (PStr "failed") PNone PNone None PNone
    (PDict [("B", PStr "2")]) (PBool true) initial
  = (Raise (KeyError "spec"), initial).
Proof.
  apply (proj1 (@run_job_manifest_missing_section demo_more.bare_collaborators
                  here "metadata: {}" (PStr "ok") (PStr "failed") PNone PNone
                  None PNone (PDict [("B", PStr "2")]) (PBool true) initial
                  (PDict [("B", PStr "2")]) [("metadata", PDict [])]
                  eq_refl ltac:(discriminate) eq_refl eq_refl)).
  reflexivity.
Defined.

Lemma run_job_env_not_a_dict_witness :
  job None (PList [PStr "B=2"]) (with_outputs_tmp [POutput proxy_a])
  = (Raise TypeError, with_outputs_tmp [POutput proxy_a]).
Proof.
  apply (@run_job_env_not_a_dict collaborators here pi_manifest
           (PStr "status.succeeded > 0") (PStr "status.failed > 3") PNone
           PNone None PNone (PList [PStr "B=2"]) (PBool true)
           (with_outputs_tmp [POutput proxy_a]) [POutput proxy_a]
           eq_refl eq_refl); discriminate.
Defined.

Lemma run_job_infers_outputs_witness :
  py_getitem
    (PDict (assoc_set "inferred_outputs" (PList [POutput proxy_a])
              [("inferred_outputs", PStr "mine")]))
    "inferred_outputs"
  = Ok (PList [POutput proxy_a]).
Proof.
  set (st := with_outputs_tmp [POutput proxy_a]).
  set (result := job None (PDict [("inferred_outputs", PStr "mine")]) st).
  assert (result =
          (Ok (match fst result with Ok r => r | Raise _ => PNone end),
           snd result)) as Hrun by (vm_compute; reflexivity).
  exact (proj1 (@run_job_infers_outputs collaborators here pi_manifest
                  (PStr "status.succeeded > 0") (PStr "status.failed > 3")
                  PNone PNone None PNone (PBool true)
                  [("inferred_outputs", PStr "mine")] [POutput proxy_a]
                  st _ _ eq_refl eq_refl Hrun)).
Defined.

End run_job_edge_examples.

(** ** run_job: the manifest patch as an operation on dicts *)

Section patch_manifest_more.

Lemma assoc_set_idem {V} (k : string) (v w : V) (d : list (string * V)) :
  assoc_set k v (assoc_set k w d) = assoc_set k v d.
Proof.
  induction d as [|[k' v'] d IH]; cbn [assoc_set].
  - rewrite String.eqb_refl. reflexivity.
  - destruct (String.eqb k k') eqn:E; cbn [assoc_set].
    + rewrite String.eqb_refl. reflexivity.
    + rewrite E, IH. reflexivity.
Qed.

Lemma assoc_set_keys {V} (k : string) (v : V) (d : list (string * V)) :
  is_Some (assoc k d) -> map fst (assoc_set k v d) = map fst d.
Proof.
  induction d as [|[k' v'] d IH]; cbn [assoc assoc_set].
  - intros [? [=]].
  - destruct (String.eqb k k') eqn:E; intros Hsome.
    + apply String.eqb_eq in E. subst k'. reflexivity.
    + cbn [map fst]. rewrite (IH Hsome). reflexivity.
Qed.

(** The two shapes of a returning [patch_manifest]. *)
Lemma patch_manifest_shape (d envs d' : pyval) :
  patch_manifest d envs = Ok d' ->
  exists m sp md,
    d = PDict m /\ assoc "spec" m = Some (PDict sp) /\
    assoc "metadata" m = Some md /\
    let m1 := assoc_set "spec" (PDict (assoc_set "env" envs sp)) m in
    (py_path owner_label_path d = None /\ d' = PDict m1) \/
    (exists mdl lbl,
        md = PDict mdl /\ assoc "labels" mdl = Some (PDict lbl) /\
        is_Some (assoc owner_label lbl) /\
        d' = PDict
               (assoc_set "metadata"
                  (PDict
                     (assoc_set "labels"
                        (PDict (assoc_set owner_label pod_name_reference lbl))
                        mdl)) m1)).
Proof.
  unfold patch_manifest.
  destruct d as [| | | | | |m]; try discriminate.
  cbn [py_getitem obind].
  destruct (assoc "spec" m) as [spec|] eqn:Hspec; [|discriminate].
  destruct spec as [| | | | | |sp]; try discriminate.
  cbn [py_setitem obind py_getitem].
  rewrite (assoc_set_other "spec" "metadata") by discriminate.
  destruct (assoc "metadata" m) as [md|] eqn:Hmd; [|discriminate].
  intros Hrun. exists m, sp, md.
  split; [reflexivity|]. split; [exact Hspec|]. split; [exact Hmd|].
  cbv zeta. unfold owner_label_path. cbn [py_path]. rewrite Hmd.
  cbn [obind] in Hrun.
  destruct md as [| | |s|o|l|mdl]; try discriminate Hrun;
    cbn [py_contains obind] in Hrun.
  - destruct (str_contains "labels" s); [discriminate Hrun|].
    injection Hrun as <-. left. split; reflexivity.
  - destruct (bool_decide (PStr "labels" ∈ l)); [discriminate Hrun|].
    injection Hrun as <-. left. split; reflexivity.
  - destruct (assoc "labels" mdl) as [lb|] eqn:Hlb.
    + rewrite bool_decide_eq_true_2 in Hrun by eauto.
      cbn [py_getitem obind] in Hrun. rewrite Hlb in Hrun.
      cbn [obind] in Hrun.
      destruct lb as [| | |s|o|l|lbl]; try discriminate Hrun;
        cbn [py_contains obind] in Hrun.
      * destruct (str_contains owner_label s); [discriminate Hrun|].
        injection Hrun as <-. left. split; reflexivity.
      * destruct (bool_decide (PStr owner_label ∈ l)); [discriminate Hrun|].
        injection Hrun as <-. left. split; reflexivity.
      * destruct (assoc owner_label lbl) as [old|] eqn:Hown.
        -- rewrite bool_decide_eq_true_2 in Hrun by eauto.
           cbn [py_setitem obind] in Hrun. injection Hrun as <-.
           right. exists mdl, lbl.
           split; [reflexivity|]. split; [exact Hlb|].
           split; [rewrite Hown; eauto|]. reflexivity.
        -- rewrite bool_decide_eq_false_2 in Hrun by (intros [? [=]]).
           injection Hrun as <-. left. rewrite ?Hown. split; reflexivity.
    + rewrite bool_decide_eq_false_2 in Hrun by (intros [? [=]]).
      injection Hrun as <-. left. split; reflexivity.
Qed.

(** X22. The manifest patch keeps the key order of the manifest: the
    top-level keys of the patched dict are those of the parsed manifest,
    in the same order. *)
Theorem patch_manifest_keeps_key_order (envs : pyval)
    (m m' : list (string * pyval)) :
  patch_manifest (PDict m) envs = Ok (PDict m') -> map fst m' = map fst m.
Proof.
  intros Hrun.
  destruct (patch_manifest_shape _ _ _ Hrun)
    as (m0 & sp & md & [= <-] & Hspec & Hmd & Hshape).
  assert (map fst (assoc_set "spec" (PDict (assoc_set "env" envs sp)) m)
          = map fst m) as Hm1 by (apply assoc_set_keys; eauto).
  destruct Hshape as [[_ [= ->]]|(mdl & lbl & _ & _ & _ & [= ->])].
  - exact Hm1.
  - rewrite assoc_set_keys; [exact Hm1|].
    rewrite (assoc_set_other "spec" "metadata") by discriminate. eauto.
Qed.

Lemma assoc_set_present {V} (k : string) (v : V) (d : list (string * V)) :
  assoc k d = Some v -> assoc_set k v d = d.
Proof.
  induction d as [|[k' v'] d IH]; cbn [assoc assoc_set]; [discriminate|].
  destruct (String.eqb k k') eqn:E.
  - apply String.eqb_eq in E. intros [= ->]. subst k'. reflexivity.
  - intros Hd. rewrite (IH Hd). reflexivity.
Qed.

(** X23. Patching is idempotent: patching the patched manifest with the
    same entries succeeds and changes nothing. *)
Theorem patch_manifest_idempotent (d envs d' : pyval) :
  patch_manifest d envs = Ok d' -> patch_manifest d' envs = Ok d'.
Proof.
  intros Hrun.
  destruct (patch_manifest_shape _ _ _ Hrun)
    as (m & sp & md & -> & Hspec & Hmd & Hshape).
  cbv zeta in Hshape.
  set (sp1 := assoc_set "env" envs sp) in *.
  set (m1 := assoc_set "spec" (PDict sp1) m) in *.
  assert (assoc "metadata" m1 = Some md) as Hmd1.
  { unfold m1. rewrite (assoc_set_other "spec" "metadata") by discriminate.
    exact Hmd. }
  assert (assoc_set "env" envs sp1 = sp1) as Esp
    by (unfold sp1; apply assoc_set_idem).
  assert (assoc_set "spec" (PDict sp1) m1 = m1) as Em1
    by (unfold m1; apply assoc_set_idem).
  destruct Hshape as [[Hnone ->]|(mdl & lbl & -> & Hlb & Hown & ->)].
  - (* the label is absent: the second patch walks the same branches *)
    unfold patch_manifest in Hrun |- *.
    cbn [py_getitem obind] in Hrun |- *.
    rewrite Hspec in Hrun. cbn [py_setitem obind py_getitem] in Hrun.
    fold sp1 m1 in Hrun. rewrite Hmd1 in Hrun.
    assert (assoc "spec" m1 = Some (PDict sp1)) as ->
      by (unfold m1; apply assoc_set_same).
    cbn [py_setitem obind py_getitem].
    rewrite Esp, Em1, Hmd1. exact Hrun.
  - (* the label was rewritten: every assignment finds its value in place *)
    set (lbl' := assoc_set owner_label pod_name_reference lbl).
    set (mdl' := assoc_set "labels" (PDict lbl') mdl).
    set (m2 := assoc_set "metadata" (PDict mdl') m1).
    assert (assoc "spec" m2 = Some (PDict sp1)) as Hspec2.
    { unfold m2. rewrite (assoc_set_other "metadata" "spec") by discriminate.
      unfold m1. apply assoc_set_same. }
    assert (assoc "metadata" m2 = Some (PDict mdl')) as Hmd2
      by (unfold m2; apply assoc_set_same).
    assert (assoc "labels" mdl' = Some (PDict lbl')) as Hlb2
      by (unfold mdl'; apply assoc_set_same).
    assert (assoc owner_label lbl' = Some pod_name_reference) as Hown2
      by (unfold lbl'; apply assoc_set_same).
    unfold patch_manifest. cbn [py_getitem obind].
    rewrite Hspec2. cbn [py_setitem obind py_getitem].
    rewrite Esp, (assoc_set_present _ _ _ Hspec2), Hmd2.
    cbn [obind py_contains]. rewrite Hlb2.
    rewrite bool_decide_eq_true_2 by eauto.
    cbn [py_getitem obind]. rewrite Hlb2. cbn [obind py_contains].
    rewrite Hown2. rewrite bool_decide_eq_true_2 by eauto.
    cbn [py_setitem obind].
    rewrite (assoc_set_present _ _ _ Hown2), (assoc_set_present _ _ _ Hlb2),
      (assoc_set_present _ _ _ Hmd2).
    reflexivity.
Qed.

End patch_manifest_more.

Lemma patch_manifest_keeps_key_order_witness :
  map fst
    [("metadata",
      PDict [("name", PStr "pi");
             ("labels", PDict [("argo.step.owner", PStr "'{{pod.name}}'");
                               ("app", PStr "pi")])]);
     ("spec",
      PDict [("env", PList [PDict [("name", PStr "B"); ("value", PStr "2")]]);
             ("backoffLimit", PInt 4)])]
  = ["metadata"; "spec"].
Proof.
  apply (patch_manifest_keeps_key_order
           (demo.env_entries (PDict [("B", PStr "2")]))
           [("metadata",
             PDict [("name", PStr "pi");
                    ("labels", PDict [("argo.step.owner", PStr "me");
                                      ("app", PStr "pi")])]);
            ("spec",
             PDict [("env", PList [PDict [("name", PStr "A");
                                          ("value", PInt 1)]]);
                    ("backoffLimit", PInt 4)])]).
  vm_compute. reflexivity.
Defined.

Lemma patch_manifest_idempotent_witness :
  patch_manifest demo.pi_manifest_patched
    (demo.env_entries (PDict [("B", PStr "2")]))
  = Ok demo.pi_manifest_patched.
Proof.
  apply (patch_manifest_idempotent demo.pi_manifest_dict).
  vm_compute. reflexivity.
Defined.
